(** * CorrectnessVerificationAndPerformanceComparison.ipynb

    A shallow embedding of the tutorial notebook
    [tutorials/CorrectnessVerificationAndPerformanceComparison.ipynb].

    The notebook is glue code: it defines one class ([MyModel]) and then
    sequences calls into PyTorch, ONNX, Caffe2, onnx-caffe2 and NumPy.
    None of those libraries is part of the repository, so they enter the
    development as an interface ([Libs]): carrier types, attribute
    accessors, and one handler per library function the notebook calls.
    A handler reads and writes an abstract [World] (random generator,
    file system, Caffe2 workspaces, clock, ...) and either returns a value
    or raises.

    The notebook itself is a program in a small monad [M] that threads the
    world, raises exceptions and records every library call the notebook
    makes, in order, with its arguments and its result ([Event]).  The code
    cells are run in document order; an uncaught exception ends the run.

    Tensors, arrays and protobuf messages are values.  The one in-place
    update the notebook performs ([device_option.CopyFrom]) is a functional
    update of the net bound to the same name.  Calls that a library makes
    back into [MyModel.forward] (tracing inside the exporter, the timed runs
    inside the benchmark helper) belong to that library call's effect on the
    world; the log records the calls written in the notebook. *)

From Stdlib Require Import List String ZArith Lia Bool DecimalString Sorted.
Import ListNotations.

Set Implicit Arguments.

(** ** Outcomes of Python calls *)

Inductive outcome (E A : Type) : Type :=
| Ok (a : A)
| Raise (e : E).

Arguments Ok {E A} a.
Arguments Raise {E A} e.

Definition bytes : Type := list Byte.byte.

(** [class MyModel(torch.nn.Module)]: [__init__] only calls the parent
    constructor, so an instance carries no data of its own. *)
Inductive MyModel : Type := MyModel_init.

(** ** The libraries the notebook imports *)

Class Libs : Type := {
  World : Type;
  LibExn : Type;
  Scalar : Type;
  Tensor : Type;        (* torch.Tensor *)
  Var : Type;           (* torch.autograd.Variable *)
  NdArray : Type;       (* numpy.ndarray *)
  OnnxModel : Type;     (* onnx.ModelProto *)
  OnnxGraph : Type;     (* onnx.GraphProto *)
  NetDef : Type;        (* caffe2_pb2.NetDef *)
  DevOpt : Type;        (* caffe2_pb2.DeviceOption *)
  NamedInputs : Type;   (* what name_inputs returns *)
  Workspace : Type;     (* first component of c2_native_run_net's result *)
  Duration : Type;          (* an element of a benchmark result *)

  (* constructors, attributes and conversions *)
  Variable_ : Tensor -> Var;                       (* Variable(t) *)
  data : Var -> Tensor;                            (* v.data *)
  numpy : Tensor -> NdArray;                       (* t.numpy() *)
  cpu : Tensor -> Tensor;                          (* t.cpu() *)
  graph : OnnxModel -> OnnxGraph;                  (* m.graph *)
  caffe2_pb2_CPU : Z;
  caffe2_pb2_CUDA : Z;
  core_DeviceOption : Z -> Z -> DevOpt;            (* core.DeviceOption(t, id) *)
  device_type : DevOpt -> Z;                       (* d.device_type *)
  device_option_CopyFrom : NetDef -> DevOpt -> NetDef;
                                  (* net.device_option.CopyFrom(d) *)
  format_time : Duration -> string;                    (* "{}".format(t) *)
  var_elements : Var -> list Scalar;               (* elements, row major *)
  array_elements : NdArray -> list Scalar;

  (* library functions; the [bytes] argument of the exporter is the
     contents of the [io.BytesIO] buffer it writes to, its result the
     contents afterwards *)
  ext_torch_randn : list Z -> World -> outcome LibExn Tensor * World;
  ext_torch_mm : Var -> Var -> World -> outcome LibExn Var * World;
  ext_torch_onnx_export :
    MyModel -> list Var -> bytes -> bool -> World -> outcome LibExn bytes * World;
  ext_ModelProto_FromString : bytes -> World -> outcome LibExn OnnxModel * World;
  ext_check_model : OnnxModel -> World -> outcome LibExn unit * World;
  ext_onnx_graph_to_caffe2_net :
    OnnxGraph -> World -> outcome LibExn (NetDef * NetDef) * World;
  ext_save_caffe2_net :
    NetDef -> string -> bool -> World -> outcome LibExn unit * World;
  ext_load_caffe2_net : string -> World -> outcome LibExn NetDef * World;
  ext_name_inputs :
    OnnxModel -> list NdArray -> World -> outcome LibExn NamedInputs * World;
  ext_c2_native_run_net :
    NetDef -> NetDef -> NamedInputs -> World ->
    outcome LibExn (Workspace * list NdArray) * World;
  ext_Variable_cpu : Var -> World -> outcome LibExn Var * World;
  ext_assert_almost_equal :
    NdArray -> NdArray -> Z -> World -> outcome LibExn unit * World;
  ext_benchmark_pytorch_model :
    MyModel -> list Var -> World -> outcome LibExn (list Duration) * World;
  ext_benchmark_caffe2_model :
    NetDef -> NetDef -> World -> outcome LibExn (list Duration) * World
}.

Section Notebook.

Context {L : Libs}.

(** ** Exceptions, values and the call log *)

Inductive Exn : Type :=
| LibError (e : LibExn)
| TypeError
| IndexError.

Inductive Value : Type :=
| VNone
| VBool (b : bool)
| VInt (z : Z)
| VStr (s : string)
| VBytes (b : bytes)
| VModel (m : MyModel)
| VTensor (t : Tensor)
| VVar (v : Var)
| VVars (vs : list Var)
| VNdArray (a : NdArray)
| VNdArrays (l : list NdArray)
| VOnnxModel (m : OnnxModel)
| VOnnxGraph (g : OnnxGraph)
| VNetDef (n : NetDef)
| VNets (ns : NetDef * NetDef)
| VNamedInputs (d : NamedInputs)
| VRun (r : Workspace * list NdArray)
| VTimes (ts : list Duration).

(** One constructor per library function called in the notebook, with the
    arguments of the call. *)
Inductive Call : Type :=
| c_torch_randn (shape : list Z)
| c_torch_mm (m1 m2 : Var)
| c_torch_onnx_export (model : MyModel) (inputs : list Var) (f : bytes)
    (verbose : bool)
| c_ModelProto_FromString (s : bytes)
| c_check_model (model : OnnxModel)
| c_onnx_graph_to_caffe2_net (g : OnnxGraph)
| c_save_caffe2_net (net : NetDef) (file : string) (output_txt : bool)
| c_load_caffe2_net (file : string)
| c_name_inputs (model : OnnxModel) (inputs : list NdArray)
| c_c2_native_run_net (init_net predict_net : NetDef) (inputs : NamedInputs)
| c_Variable_cpu (p : Var)
| c_assert_almost_equal (actual desired : NdArray) (decimal : Z)
| c_benchmark_pytorch_model (model : MyModel) (inputs : list Var)
| c_benchmark_caffe2_model (init_net predict_net : NetDef)
| c_print (s : string).

Inductive Event : Type :=
| Returned (c : Call) (v : Value)
| Raised (c : Call) (e : LibExn).

Definition event_call (e : Event) : Call :=
  match e with
  | Returned c _ => c
  | Raised c _ => c
  end.

Definition event_output (e : Event) : option Value :=
  match e with
  | Returned _ v => Some v
  | Raised _ _ => None
  end.

(** ** The monad *)

Record St : Type := mkSt { world : World; log : list Event }.

Definition M (A : Type) : Type := St -> outcome Exn A * St.

Definition ret {A} (a : A) : M A := fun s => (Ok a, s).

Definition raise {A} (e : Exn) : M A := fun s => (Raise e, s).

Definition bind {A B} (m : M A) (k : A -> M B) : M B :=
  fun s =>
    match m s with
    | (Ok a, s') => k a s'
    | (Raise e, s') => (Raise e, s')
    end.

(** A library call: run the handler on the current world and append the
    event to the log. *)
Definition call {A} (c : Call) (inj : A -> Value)
    (h : World -> outcome LibExn A * World) : M A :=
  fun s =>
    match h (world s) with
    | (Ok a, w) => (Ok a, mkSt w (log s ++ [Returned c (inj a)]))
    | (Raise e, w) => (Raise (LibError e), mkSt w (log s ++ [Raised c e]))
    end.

Definition start (w : World) : St := mkSt w [].

End Notebook.

Declare Scope nb_scope.
Delimit Scope nb_scope with nb.
Notation "x <- m ;; k" := (bind m (fun x => k))
  (at level 61, m at next level, right associativity) : nb_scope.
Notation "m ;; k" := (bind m (fun _ => k))
  (at level 61, right associativity) : nb_scope.

Section Cells.

Context {L : Libs}.

Local Open Scope nb_scope.

(** ** Library calls as notebook operations *)

Definition as_none (_ : unit) : Value := VNone.

Definition torch_randn (shape : list Z) : M Tensor :=
  call (c_torch_randn shape) VTensor (ext_torch_randn shape).

Definition torch_mm (m1 m2 : Var) : M Var :=
  call (c_torch_mm m1 m2) VVar (ext_torch_mm m1 m2).

Definition torch_onnx_export (model : MyModel) (inputs : list Var) (f : bytes)
    (verbose : bool) : M bytes :=
  call (c_torch_onnx_export model inputs f verbose) VBytes
       (ext_torch_onnx_export model inputs f verbose).

Definition ModelProto_FromString (s : bytes) : M OnnxModel :=
  call (c_ModelProto_FromString s) VOnnxModel (ext_ModelProto_FromString s).

Definition check_model (model : OnnxModel) : M unit :=
  call (c_check_model model) as_none (ext_check_model model).

Definition onnx_graph_to_caffe2_net (g : OnnxGraph) : M (NetDef * NetDef) :=
  call (c_onnx_graph_to_caffe2_net g) VNets (ext_onnx_graph_to_caffe2_net g).

Definition save_caffe2_net (net : NetDef) (file : string) (output_txt : bool)
    : M unit :=
  call (c_save_caffe2_net net file output_txt) as_none
       (ext_save_caffe2_net net file output_txt).

Definition load_caffe2_net (file : string) : M NetDef :=
  call (c_load_caffe2_net file) VNetDef (ext_load_caffe2_net file).

Definition name_inputs (model : OnnxModel) (inputs : list NdArray)
    : M NamedInputs :=
  call (c_name_inputs model inputs) VNamedInputs (ext_name_inputs model inputs).

Definition c2_native_run_net (init_net predict_net : NetDef)
    (inputs : NamedInputs) : M (Workspace * list NdArray) :=
  call (c_c2_native_run_net init_net predict_net inputs) VRun
       (ext_c2_native_run_net init_net predict_net inputs).

Definition Variable_cpu (p : Var) : M Var :=
  call (c_Variable_cpu p) VVar (ext_Variable_cpu p).

Definition assert_almost_equal (actual desired : NdArray) (decimal : Z)
    : M unit :=
  call (c_assert_almost_equal actual desired decimal) as_none
       (ext_assert_almost_equal actual desired decimal).

Definition benchmark_pytorch_model (model : MyModel) (inputs : list Var)
    : M (list Duration) :=
  call (c_benchmark_pytorch_model model inputs) VTimes
       (ext_benchmark_pytorch_model model inputs).

Definition benchmark_caffe2_model (init_net predict_net : NetDef)
    : M (list Duration) :=
  call (c_benchmark_caffe2_model init_net predict_net) VTimes
       (ext_benchmark_caffe2_model init_net predict_net).

(** [print] writes to standard output; it is recorded like a call that
    always returns. *)
Definition print (s : string) : M unit :=
  fun st => (Ok tt, mkSt (world st) (log st ++ [Returned (c_print s) VNone])).

(** ** Python built-ins the notebook uses *)

(** [zip] stops at the shorter argument. *)
Fixpoint zip {A B} (xs : list A) (ys : list B) : list (A * B) :=
  match xs, ys with
  | x :: xs', y :: ys' => (x, y) :: zip xs' ys'
  | _, _ => []
  end.

(** [for x in l: body] *)
Fixpoint for_each {A} (l : list A) (body : A -> M unit) : M unit :=
  match l with
  | [] => ret tt
  | x :: l' => body x ;; for_each l' body
  end.

(** [l[i]] *)
Definition getitem {A} (l : list A) (i : nat) : M A :=
  match nth_error l i with
  | Some x => ret x
  | None => raise IndexError
  end.

(** ["{}".format(n)] for an integer. *)
Definition format_int (n : Z) : string := NilZero.string_of_int (Z.to_int n).

(** ** Cell [2]: the model and its inputs *)

(** [def forward(self, m1, m2): return torch.mm(m1, m2)] *)
Definition forward (self : MyModel) (m1 m2 : Var) : M Var :=
  torch_mm m1 m2.

(** [model( *args )]: [torch.nn.Module.__call__] passes the positional
    arguments to [forward], which takes exactly two. *)
Definition MyModel_call (self : MyModel) (args : list Var) : M Var :=
  match args with
  | [m1; m2] => forward self m1 m2
  | _ => raise TypeError
  end.

Definition cell_model : M (MyModel * list Var) :=
  let pytorch_model := MyModel_init in
  t1 <- torch_randn [3; 4]%Z ;;
  t2 <- torch_randn [4; 5]%Z ;;
  let inputs := [Variable_ t1; Variable_ t2] in
  ret (pytorch_model, inputs).

(** ** Cell [3]: export to ONNX and check *)

Definition cell_export (pytorch_model : MyModel) (inputs : list Var)
    : M OnnxModel :=
  let f : bytes := [] in
  f <- torch_onnx_export pytorch_model inputs f true ;;
  onnx_model <- ModelProto_FromString f ;;
  print "Check the ONNX model." ;;
  check_model onnx_model ;;
  ret onnx_model.

(** ** Cell [4]: convert to Caffe2 and set the device option *)

Definition cell_convert (onnx_model : OnnxModel)
    : M (NetDef * NetDef * DevOpt) :=
  print "Convert the model to a Caffe2 model." ;;
  nets <- onnx_graph_to_caffe2_net (graph onnx_model) ;;
  let init_net := fst nets in
  let predict_net := snd nets in
  let device_opts := core_DeviceOption caffe2_pb2_CPU 0 in
  let init_net := device_option_CopyFrom init_net device_opts in
  let predict_net := device_option_CopyFrom predict_net device_opts in
  ret (init_net, predict_net, device_opts).

(** ** Cell [5]: the inputs for Caffe2 *)

Definition cell_inputs (inputs : list Var) : list NdArray :=
  map (fun var => numpy (data var)) inputs.

(** ** Cell [6]: save and load the nets *)

Definition init_file : string := "./output/mymodel_init.pb".
Definition predict_file : string := "./output/mymodel_predict.pb".

Definition cell_save_load (init_net predict_net : NetDef)
    : M (NetDef * NetDef) :=
  save_caffe2_net init_net init_file false ;;
  save_caffe2_net predict_net predict_file true ;;
  init_net <- load_caffe2_net init_file ;;
  predict_net <- load_caffe2_net predict_file ;;
  ret (init_net, predict_net).

(** ** Cell [7]: run both models *)

Definition cell_run (pytorch_model : MyModel) (inputs : list Var)
    (init_net predict_net : NetDef) (onnx_model : OnnxModel)
    (caffe2_inputs : list NdArray) : M (Var * list NdArray) :=
  pytorch_results <- MyModel_call pytorch_model inputs ;;
  named <- name_inputs onnx_model caffe2_inputs ;;
  run <- c2_native_run_net init_net predict_net named ;;
  let caffe2_results := snd run in
  ret (pytorch_results, caffe2_results).

(** ** Cell [8]: the precision check *)

Definition expected_decimal : Z := 5.

Definition verify_body (device_opts : DevOpt) (pc : Var * NdArray) : M unit :=
  let p := fst pc in
  let c := snd pc in
  (if (device_type device_opts =? caffe2_pb2_CUDA)%Z
   then (Variable_cpu p ;; ret tt)
   else ret tt) ;;
  assert_almost_equal (numpy (cpu (data p))) c expected_decimal.

Definition cell_verify (device_opts : DevOpt) (pytorch_results : Var)
    (caffe2_results : list NdArray) : M unit :=
  for_each (zip [pytorch_results] caffe2_results) (verify_body device_opts) ;;
  print ("The exported model achieves " ++ format_int expected_decimal
         ++ "-decimal precision.")%string.

(** ** Cell [9]: the benchmark *)

Definition cell_benchmark (pytorch_model : MyModel) (inputs : list Var)
    (init_net predict_net : NetDef) : M (list Duration * list Duration) :=
  pytorch_times <- benchmark_pytorch_model pytorch_model inputs ;;
  caffe2_times <- benchmark_caffe2_model init_net predict_net ;;
  t <- getitem pytorch_times 0 ;;
  print ("PyTorch model's execution time is " ++ format_time t
         ++ " / iteration.")%string ;;
  t <- getitem caffe2_times 0 ;;
  print ("Caffe2 model's execution time is " ++ format_time t
         ++ " / iteration.")%string ;;
  ret (pytorch_times, caffe2_times).

(** ** The notebook: all code cells in document order *)

Record Globals : Type := mkGlobals {
  g_pytorch_model : MyModel;
  g_inputs : list Var;
  g_onnx_model : OnnxModel;
  g_init_net : NetDef;
  g_predict_net : NetDef;
  g_device_opts : DevOpt;
  g_caffe2_inputs : list NdArray;
  g_pytorch_results : Var;
  g_caffe2_results : list NdArray;
  g_pytorch_times : list Duration;
  g_caffe2_times : list Duration
}.

Definition notebook : M Globals :=
  mi <- cell_model ;;
  let pytorch_model := fst mi in
  let inputs := snd mi in
  onnx_model <- cell_export pytorch_model inputs ;;
  nd <- cell_convert onnx_model ;;
  let init_net := fst (fst nd) in
  let predict_net := snd (fst nd) in
  let device_opts := snd nd in
  let caffe2_inputs := cell_inputs inputs in
  nets <- cell_save_load init_net predict_net ;;
  let init_net := fst nets in
  let predict_net := snd nets in
  res <- cell_run pytorch_model inputs init_net predict_net onnx_model
                  caffe2_inputs ;;
  let pytorch_results := fst res in
  let caffe2_results := snd res in
  cell_verify device_opts pytorch_results caffe2_results ;;
  times <- cell_benchmark pytorch_model inputs init_net predict_net ;;
  ret (mkGlobals pytorch_model inputs onnx_model init_net predict_net
         device_opts caffe2_inputs pytorch_results caffe2_results
         (fst times) (snd times)).

(** The log and the result of a run from world [w]. *)
Definition trace (w : World) : list Event := log (snd (notebook (start w))).

Definition result (w : World) : outcome Exn Globals := fst (notebook (start w)).

End Cells.

(** ** Observations on logs *)

Section Observations.

Context {L : Libs}.

(** The argument values of a call. *)
Definition call_args (c : Call) : list Value :=
  match c with
  | c_torch_randn shape => map VInt shape
  | c_torch_mm m1 m2 => [VVar m1; VVar m2]
  | c_torch_onnx_export model inputs f verbose =>
      [VModel model; VVars inputs; VBytes f; VBool verbose]
  | c_ModelProto_FromString s => [VBytes s]
  | c_check_model model => [VOnnxModel model]
  | c_onnx_graph_to_caffe2_net g => [VOnnxGraph g]
  | c_save_caffe2_net net file output_txt =>
      [VNetDef net; VStr file; VBool output_txt]
  | c_load_caffe2_net file => [VStr file]
  | c_name_inputs model inputs => [VOnnxModel model; VNdArrays inputs]
  | c_c2_native_run_net init_net predict_net inputs =>
      [VNetDef init_net; VNetDef predict_net; VNamedInputs inputs]
  | c_Variable_cpu p => [VVar p]
  | c_assert_almost_equal actual desired decimal =>
      [VNdArray actual; VNdArray desired; VInt decimal]
  | c_benchmark_pytorch_model model inputs => [VModel model; VVars inputs]
  | c_benchmark_caffe2_model init_net predict_net =>
      [VNetDef init_net; VNetDef predict_net]
  | c_print s => [VStr s]
  end.

(** What the notebook's own expressions make out of a value before passing
    it on: wrapping, packing into a tuple or list, attribute access,
    conversion, unpacking, iteration, the in-place copy of the device
    option. *)
Inductive derive : Value -> Value -> Prop :=
| derive_Variable t : derive (VTensor t) (VVar (Variable_ t))
| derive_tuple v vs : In v vs -> derive (VVar v) (VVars vs)
| derive_numpy v : derive (VVar v) (VNdArray (numpy (data v)))
| derive_cpu_numpy v : derive (VVar v) (VNdArray (numpy (cpu (data v))))
| derive_list a l : In a l -> derive (VNdArray a) (VNdArrays l)
| derive_graph m : derive (VOnnxModel m) (VOnnxGraph (graph m))
| derive_fst ns : derive (VNets ns) (VNetDef (fst ns))
| derive_snd ns : derive (VNets ns) (VNetDef (snd ns))
| derive_CopyFrom n d :
    derive (VNetDef n) (VNetDef (device_option_CopyFrom n d))
| derive_outputs r a : In a (snd r) -> derive (VRun r) (VNdArray a)
| derive_getitem ts t : In t ts -> derive (VTimes ts) (VStr (format_time t)).

Inductive flows : Value -> Value -> Prop :=
| flows_refl v : flows v v
| flows_step u v w : derive u v -> flows v w -> flows u w.

(** [next] consumes the output of [prev]: [prev] returned a value and that
    value, or something the notebook derives from it, is an argument of
    [next]. *)
Definition consumes (prev next : Event) : Prop :=
  exists v a,
    event_output prev = Some v /\
    flows v a /\
    In a (call_args (event_call next)).

(** The steps of the workflow; the other calls ([print], [check_model],
    saving and loading, [name_inputs]) are not steps of their own. *)
Inductive Step : Type :=
| Define | Export | Convert | RunBoth | AssertClose | Benchmark.

Definition Step_eqb (a b : Step) : bool :=
  match a, b with
  | Define, Define | Export, Export | Convert, Convert
  | RunBoth, RunBoth | AssertClose, AssertClose | Benchmark, Benchmark => true
  | _, _ => false
  end.

Definition step_of (c : Call) : option Step :=
  match c with
  | c_torch_randn _ => Some Define
  | c_torch_onnx_export _ _ _ _ => Some Export
  | c_ModelProto_FromString _ => Some Export
  | c_onnx_graph_to_caffe2_net _ => Some Convert
  | c_torch_mm _ _ => Some RunBoth
  | c_c2_native_run_net _ _ _ => Some RunBoth
  | c_assert_almost_equal _ _ _ => Some AssertClose
  | c_benchmark_pytorch_model _ _ => Some Benchmark
  | c_benchmark_caffe2_model _ _ => Some Benchmark
  | _ => None
  end.

(** The steps of a log in the order they happen, each maximal run of calls
    of one step counted once. *)
Fixpoint steps (l : list Event) : list Step :=
  match l with
  | [] => []
  | e :: l' =>
      match step_of (event_call e), steps l' with
      | None, r => r
      | Some s, [] => [s]
      | Some s, s' :: r => if Step_eqb s s' then s' :: r else s :: s' :: r
      end
  end.

Definition in_step (s : Step) (e : Event) : Prop :=
  step_of (event_call e) = Some s.

(** Some call of step [s2] consumes the output of some call of step [s1]. *)
Definition step_consumes (l : list Event) (s1 s2 : Step) : Prop :=
  exists e1 e2,
    In e1 l /\ In e2 l /\ in_step s1 e1 /\ in_step s2 e2 /\ consumes e1 e2.

Definition workflow : list Step :=
  [Define; Export; Convert; RunBoth; AssertClose; Benchmark].

(** The steps happen in the order of [workflow] and each consumes the
    output of the one before it. *)
Definition pipeline (l : list Event) : Prop :=
  steps l = workflow /\
  step_consumes l Define Export /\
  step_consumes l Export Convert /\
  step_consumes l Convert RunBoth /\
  step_consumes l RunBoth AssertClose /\
  step_consumes l AssertClose Benchmark.

Definition is_assert (e : Event) : bool :=
  match event_call e with
  | c_assert_almost_equal _ _ _ => true
  | _ => false
  end.

Definition is_Variable_cpu (e : Event) : bool :=
  match event_call e with
  | c_Variable_cpu _ => true
  | _ => false
  end.

(** The two facts about Caffe2's device options the notebook relies on:
    [core.DeviceOption] stores the device type it is given, and the enum
    values [CPU] and [CUDA] differ. *)
Definition device_laws : Prop :=
  (forall t i, device_type (core_DeviceOption t i) = t) /\
  caffe2_pb2_CPU <> caffe2_pb2_CUDA.

(** [v.data.numpy()] is an array over the elements of [v]. *)
Definition numpy_view : Prop :=
  forall v, array_elements (numpy (data v)) = var_elements v.

(** ** The log of the notebook, cell by cell

    What each code cell appends to the log when all its calls return, as a
    function of the values the libraries return. *)

Definition the_inputs (t1 t2 : Tensor) : list Var := [Variable_ t1; Variable_ t2].

Definition cpu_opts : DevOpt := core_DeviceOption caffe2_pb2_CPU 0.

Definition log_model (t1 t2 : Tensor) : list Event :=
  [Returned (c_torch_randn [3; 4]%Z) (VTensor t1);
   Returned (c_torch_randn [4; 5]%Z) (VTensor t2)].

Definition log_export (t1 t2 : Tensor) (f : bytes) (m : OnnxModel)
    : list Event :=
  [Returned (c_torch_onnx_export MyModel_init (the_inputs t1 t2) [] true)
     (VBytes f);
   Returned (c_ModelProto_FromString f) (VOnnxModel m);
   Returned (c_print "Check the ONNX model.") VNone;
   Returned (c_check_model m) VNone].

Definition log_convert (m : OnnxModel) (nets : NetDef * NetDef) : list Event :=
  [Returned (c_print "Convert the model to a Caffe2 model.") VNone;
   Returned (c_onnx_graph_to_caffe2_net (graph m)) (VNets nets)].

Definition log_save_load (nets : NetDef * NetDef) (init_net predict_net : NetDef)
    : list Event :=
  [Returned (c_save_caffe2_net (device_option_CopyFrom (fst nets) cpu_opts)
               init_file false) VNone;
   Returned (c_save_caffe2_net (device_option_CopyFrom (snd nets) cpu_opts)
               predict_file true) VNone;
   Returned (c_load_caffe2_net init_file) (VNetDef init_net);
   Returned (c_load_caffe2_net predict_file) (VNetDef predict_net)].

Definition log_pytorch_run (t1 t2 : Tensor) (p : Var) : list Event :=
  [Returned (c_torch_mm (Variable_ t1) (Variable_ t2)) (VVar p)].

Definition log_caffe2_run (t1 t2 : Tensor) (m : OnnxModel)
    (init_net predict_net : NetDef) (named : NamedInputs)
    (run : Workspace * list NdArray) : list Event :=
  [Returned (c_name_inputs m (map (fun v => numpy (data v)) (the_inputs t1 t2)))
     (VNamedInputs named);
   Returned (c_c2_native_run_net init_net predict_net named) (VRun run)].

Definition log_verify (p : Var) (c : NdArray) : list Event :=
  [Returned (c_assert_almost_equal (numpy (cpu (data p))) c 5) VNone;
   Returned (c_print "The exported model achieves 5-decimal precision.") VNone].

Definition log_benchmark (t1 t2 : Tensor) (init_net predict_net : NetDef)
    (pytorch_times caffe2_times : list Duration) (tp tc : Duration) : list Event :=
  [Returned (c_benchmark_pytorch_model MyModel_init (the_inputs t1 t2))
     (VTimes pytorch_times);
   Returned (c_benchmark_caffe2_model init_net predict_net)
     (VTimes caffe2_times);
   Returned (c_print ("PyTorch model's execution time is "
                      ++ format_time tp ++ " / iteration.")%string) VNone;
   Returned (c_print ("Caffe2 model's execution time is "
                      ++ format_time tc ++ " / iteration.")%string) VNone].

(** The log of a complete run, from the values the libraries returned. *)
Definition complete_log (t1 t2 : Tensor) (f : bytes) (m : OnnxModel)
    (nets : NetDef * NetDef) (init_net predict_net : NetDef) (p : Var)
    (named : NamedInputs) (run : Workspace * list NdArray) (c : NdArray)
    (pytorch_times caffe2_times : list Duration) (tp tc : Duration) : list Event :=
  log_model t1 t2 ++ log_export t1 t2 f m ++ log_convert m nets ++
  log_save_load nets init_net predict_net ++ log_pytorch_run t1 t2 p ++
  log_caffe2_run t1 t2 m init_net predict_net named run ++
  log_verify p c ++
  log_benchmark t1 t2 init_net predict_net pytorch_times caffe2_times tp tc.

(** ** Weakest preconditions *)

Definition wp {A} (m : M A) (Q : outcome Exn A -> St -> Prop) (s : St) : Prop :=
  Q (fst (m s)) (snd (m s)).

End Observations.

(** ** Further observations on runs *)

Section Outcomes.

Context {L : Libs}.

(** The line the precision cell prints after its loop. *)
Definition success_message : string :=
  ("The exported model achieves " ++ format_int expected_decimal
   ++ "-decimal precision.")%string.

Definition is_returned (e : Event) : bool :=
  match e with
  | Returned _ _ => true
  | Raised _ _ => false
  end.

(** A benchmark helper returned an empty sequence. *)
Definition empty_benchmark (e : Event) : Prop :=
  (exists model inputs,
     e = Returned (c_benchmark_pytorch_model model inputs) (VTimes [])) \/
  (exists init_net predict_net,
     e = Returned (c_benchmark_caffe2_model init_net predict_net) (VTimes [])).

(** The position of a step in the workflow. *)
Definition step_index (s : Step) : nat :=
  match s with
  | Define => 0
  | Export => 1
  | Convert => 2
  | RunBoth => 3
  | AssertClose => 4
  | Benchmark => 5
  end.

(** The events a computation appends to the log of [s]. *)
Definition appended {A} (m : M A) (s : St) : list Event :=
  skipn (List.length (log s)) (log (snd (m s))).

End Outcomes.

(** The libraries [L] with another Caffe2 runner in place of
    [c2_native_run_net]. *)
Definition with_run_net (L : Libs)
    (h : @NetDef L -> @NetDef L -> @NamedInputs L -> @World L ->
         outcome (@LibExn L) (@Workspace L * list (@NdArray L)) * @World L)
    : Libs := {|
  World := @World L;
  LibExn := @LibExn L;
  Scalar := @Scalar L;
  Tensor := @Tensor L;
  Var := @Var L;
  NdArray := @NdArray L;
  OnnxModel := @OnnxModel L;
  OnnxGraph := @OnnxGraph L;
  NetDef := @NetDef L;
  DevOpt := @DevOpt L;
  NamedInputs := @NamedInputs L;
  Workspace := @Workspace L;
  Duration := @Duration L;
  Variable_ := @Variable_ L;
  data := @data L;
  numpy := @numpy L;
  cpu := @cpu L;
  graph := @graph L;
  caffe2_pb2_CPU := @caffe2_pb2_CPU L;
  caffe2_pb2_CUDA := @caffe2_pb2_CUDA L;
  core_DeviceOption := @core_DeviceOption L;
  device_type := @device_type L;
  device_option_CopyFrom := @device_option_CopyFrom L;
  format_time := @format_time L;
  var_elements := @var_elements L;
  array_elements := @array_elements L;
  ext_torch_randn := @ext_torch_randn L;
  ext_torch_mm := @ext_torch_mm L;
  ext_torch_onnx_export := @ext_torch_onnx_export L;
  ext_ModelProto_FromString := @ext_ModelProto_FromString L;
  ext_check_model := @ext_check_model L;
  ext_onnx_graph_to_caffe2_net := @ext_onnx_graph_to_caffe2_net L;
  ext_save_caffe2_net := @ext_save_caffe2_net L;
  ext_load_caffe2_net := @ext_load_caffe2_net L;
  ext_name_inputs := @ext_name_inputs L;
  ext_c2_native_run_net := h;
  ext_Variable_cpu := @ext_Variable_cpu L;
  ext_assert_almost_equal := @ext_assert_almost_equal L;
  ext_benchmark_pytorch_model := @ext_benchmark_pytorch_model L;
  ext_benchmark_caffe2_model := @ext_benchmark_caffe2_model L
|}.

(** ** Library contracts *)

(** How a 2-D tensor is read: its shape (rows, columns), its entries, and
    the scalar product and accumulation the library computes with. *)
Record MatrixView {L : Libs} : Type := mkMatrixView {
  mv_shape : Var -> nat * nat;
  mv_entry : Var -> nat -> nat -> Scalar;
  mv_mul : Scalar -> Scalar -> Scalar;
  mv_sum : list Scalar -> Scalar
}.

Section Contracts.

Context {L : Libs}.

(** [r] is the matrix product of [m1] and [m2]: [m1] is [n] by [k], [m2] is
    [k] by [m], [r] is [n] by [m], and entry [(i, j)] of [r] accumulates the
    products of row [i] of [m1] with column [j] of [m2]. *)
Definition matrix_product (V : MatrixView) (m1 m2 r : Var) : Prop :=
  exists n k m,
    mv_shape V m1 = (n, k) /\
    mv_shape V m2 = (k, m) /\
    mv_shape V r = (n, m) /\
    forall i j, i < n -> j < m ->
      mv_entry V r i j =
      mv_sum V (map (fun l => mv_mul V (mv_entry V m1 i l) (mv_entry V m2 l j))
                    (seq 0 k)).

(** What [torch.mm] promises: on 2-D tensors of shapes [(n, k)] and
    [(k, m)] it returns, without raising, their matrix product. *)
Definition torch_mm_contract (V : MatrixView) : Prop :=
  forall m1 m2 n k m w,
    mv_shape V m1 = (n, k) ->
    mv_shape V m2 = (k, m) ->
    exists r w',
      ext_torch_mm m1 m2 w = (Ok r, w') /\ matrix_product V m1 m2 r.

(** What the save and load helpers promise, with [stored w file] the net
    held by [file] in world [w]: a save that returns leaves its net in the
    file and touches no other file but the text dump beside it; a load that
    returns gives the net held by the file and changes no file. *)
Definition file_laws (stored : World -> string -> option NetDef) : Prop :=
  (forall net file output_txt w u w',
     ext_save_caffe2_net net file output_txt w = (Ok u, w') ->
     stored w' file = Some net /\
     forall other,
       other <> file -> other <> (file ++ "txt")%string ->
       stored w' other = stored w other) /\
  (forall file w net w',
     ext_load_caffe2_net file w = (Ok net, w') ->
     stored w file = Some net /\
     forall other, stored w' other = stored w other).

(** The log of a run up to and including the two benchmark calls, when the
    nets loaded are the converted nets with the CPU device option. *)
Definition verified_log (t1 t2 : Tensor) (f : bytes) (m : OnnxModel)
    (nets : NetDef * NetDef) (p : Var) (named : NamedInputs)
    (run : Workspace * list NdArray) (c : NdArray)
    (pytorch_times caffe2_times : list Duration) : list Event :=
  let init_net := device_option_CopyFrom (fst nets) cpu_opts in
  let predict_net := device_option_CopyFrom (snd nets) cpu_opts in
  log_model t1 t2 ++ log_export t1 t2 f m ++ log_convert m nets ++
  log_save_load nets init_net predict_net ++ log_pytorch_run t1 t2 p ++
  log_caffe2_run t1 t2 m init_net predict_net named run ++
  log_verify p c ++
  [Returned (c_benchmark_pytorch_model MyModel_init (the_inputs t1 t2))
     (VTimes pytorch_times);
   Returned (c_benchmark_caffe2_model init_net predict_net)
     (VTimes caffe2_times)].

End Contracts.

(** ** An executable instance of the interface

    Integer matrices stand in for tensors and arrays, a counter for the
    random generator, an association list for the file system.  It lets the
    notebook run inside Rocq. *)

Module Sample.

Definition matrix : Type := list (list Z).

Record world : Type := mkWorld {
  seed : Z;
  files : list (string * (string * Z));
  clock : Z
}.

Definition fill (r c : nat) (s : Z) : matrix :=
  map (fun i => map (fun j => (s + Z.of_nat (i * c + j))%Z) (seq 0 c)) (seq 0 r).

Definition randn (shape : list Z) (w : world) : outcome string matrix * world :=
  match shape with
  | [r; c] =>
      (Ok (fill (Z.to_nat r) (Z.to_nat c) (seed w)),
       mkWorld (seed w + r * c) (files w) (clock w))
  | _ => (Raise "randn: shape"%string, w)
  end.

Definition dot (xs ys : list Z) : Z :=
  fold_right Z.add 0%Z (map (fun p => (fst p * snd p)%Z) (combine xs ys)).

Definition col (j : nat) (b : matrix) : list Z := map (fun row => nth j row 0%Z) b.

Definition matmul (a b : matrix) : matrix :=
  map (fun row => map (fun j => dot row (col j b)) (seq 0 (List.length (hd [] b)))) a.

Definition mm (a b : matrix) (w : world) : outcome string matrix * world :=
  if Nat.eqb (List.length (hd [] a)) (List.length b)
  then (Ok (matmul a b), w)
  else (Raise "mm: size mismatch"%string, w).

Definition matrix_eqb (a b : matrix) : bool :=
  if list_eq_dec (list_eq_dec Z.eq_dec) a b then true else false.

Definition lookup (file : string) (fs : list (string * (string * Z)))
    : option (string * Z) :=
  match find (fun kv => String.eqb (fst kv) file) fs with
  | Some kv => Some (snd kv)
  | None => None
  end.

#[export] Instance libs : Libs := {|
  World := world;
  LibExn := string;
  Scalar := Z;
  Tensor := matrix;
  Var := matrix;
  NdArray := matrix;
  OnnxModel := bytes;
  OnnxGraph := bytes;
  NetDef := string * Z;
  DevOpt := Z * Z;
  NamedInputs := list matrix;
  Workspace := unit;
  Duration := Z;
  Variable_ := fun t => t;
  data := fun v => v;
  numpy := fun t => t;
  cpu := fun t => t;
  graph := fun m => m;
  caffe2_pb2_CPU := 0%Z;
  caffe2_pb2_CUDA := 1%Z;
  core_DeviceOption := fun t i => (t, i);
  device_type := fst;
  device_option_CopyFrom := fun net d => (fst net, fst d);
  format_time := fun t => NilZero.string_of_int (Z.to_int t);
  var_elements := @List.concat Z;
  array_elements := @List.concat Z;
  ext_torch_randn := randn;
  ext_torch_mm := mm;
  ext_torch_onnx_export := fun _ inputs f _ w =>
    (Ok (f ++ [Byte.x08; Byte.x03]), w);
  ext_ModelProto_FromString := fun s w =>
    match s with
    | [] => (Raise "DecodeError"%string, w)
    | _ => (Ok s, w)
    end;
  ext_check_model := fun m w => (Ok tt, w);
  ext_onnx_graph_to_caffe2_net := fun g w =>
    (Ok (("init"%string, (-1)%Z), ("predict"%string, (-1)%Z)), w);
  ext_save_caffe2_net := fun net file _ w =>
    (Ok tt, mkWorld (seed w) ((file, net) :: files w) (clock w));
  ext_load_caffe2_net := fun file w =>
    match lookup file (files w) with
    | Some net => (Ok net, w)
    | None => (Raise "IOError"%string, w)
    end;
  ext_name_inputs := fun _ arrays w => (Ok arrays, w);
  ext_c2_native_run_net := fun _ _ named w =>
    match named with
    | [a; b] => (Ok (tt, [matmul a b]), w)
    | _ => (Raise "run_net: inputs"%string, w)
    end;
  ext_Variable_cpu := fun p w => (Ok p, w);
  ext_assert_almost_equal := fun a b _ w =>
    if matrix_eqb a b then (Ok tt, w) else (Raise "AssertionError"%string, w);
  ext_benchmark_pytorch_model := fun _ _ w =>
    (Ok [7%Z], mkWorld (seed w) (files w) (clock w + 70));
  ext_benchmark_caffe2_model := fun _ _ w =>
    (Ok [4%Z], mkWorld (seed w) (files w) (clock w + 40))
|}.

Definition w0 : world := mkWorld 1 [] 0.

(** The values the sample libraries return along the run. *)
Definition t1 : Tensor := [[1; 2; 3; 4]; [5; 6; 7; 8]; [9; 10; 11; 12]]%Z.
Definition t2 : Tensor :=
  [[13; 14; 15; 16; 17]; [18; 19; 20; 21; 22];
   [23; 24; 25; 26; 27]; [28; 29; 30; 31; 32]]%Z.
Definition onnx_bytes : bytes := [Byte.x08; Byte.x03].
Definition converted : NetDef * NetDef :=
  (("init"%string, (-1)%Z), ("predict"%string, (-1)%Z)).
Definition init_cpu : NetDef := ("init"%string, 0%Z).
Definition predict_cpu : NetDef := ("predict"%string, 0%Z).
Definition product : matrix :=
  [[230; 240; 250; 260; 270]; [558; 584; 610; 636; 662];
   [886; 928; 970; 1012; 1054]]%Z.

Definition sample_trace : list Event :=
  complete_log t1 t2 onnx_bytes onnx_bytes converted init_cpu predict_cpu
    product [t1; t2] (tt, [product]) product [7%Z] [4%Z] 7%Z 4%Z.

Definition e_convert : Event :=
  Returned (c_onnx_graph_to_caffe2_net onnx_bytes) (VNets converted).
Definition e_run : Event :=
  Returned (c_c2_native_run_net init_cpu predict_cpu [t1; t2])
           (VRun (tt, [product])).

Definition sample_globals : Globals :=
  mkGlobals MyModel_init [t1; t2] onnx_bytes init_cpu predict_cpu
            (0%Z, 0%Z) [t1; t2] product [product] [7%Z] [4%Z].

(** Events of the sample run, and a CUDA device option. *)
Definition e_success : Event := Returned (c_print success_message) VNone.
Definition e_load_init : Event :=
  Returned (c_load_caffe2_net init_file) (VNetDef init_cpu).
Definition e_save_init : Event :=
  Returned (c_save_caffe2_net init_cpu init_file false) VNone.
Definition e_bench_pytorch : Event :=
  Returned (c_benchmark_pytorch_model MyModel_init [t1; t2]) (VTimes [7%Z]).
Definition e_bench_caffe2 : Event :=
  Returned (c_benchmark_caffe2_model init_cpu predict_cpu) (VTimes [4%Z]).
Definition cuda_opts : DevOpt := (1%Z, 0%Z).

End Sample.

(** The sample libraries with a Caffe2 runner that returns no output. *)
Module SampleNoOutput.

Definition libs : Libs :=
  with_run_net Sample.libs (fun _ _ _ w => (Ok (tt, []), w)).

Definition sample_trace : list Event :=
  @log_model libs Sample.t1 Sample.t2 ++
  @log_export libs Sample.t1 Sample.t2 Sample.onnx_bytes Sample.onnx_bytes ++
  @log_convert libs Sample.onnx_bytes Sample.converted ++
  @log_save_load libs Sample.converted Sample.init_cpu Sample.predict_cpu ++
  @log_pytorch_run libs Sample.t1 Sample.t2 Sample.product ++
  @log_caffe2_run libs Sample.t1 Sample.t2 Sample.onnx_bytes Sample.init_cpu
     Sample.predict_cpu [Sample.t1; Sample.t2] (tt, []) ++
  [@Returned libs (c_print success_message) VNone] ++
  @log_benchmark libs Sample.t1 Sample.t2 Sample.init_cpu Sample.predict_cpu
     [7%Z] [4%Z] 7%Z 4%Z.

Definition e_run : @Event libs :=
  @Returned libs
    (@c_c2_native_run_net libs Sample.init_cpu Sample.predict_cpu
       [Sample.t1; Sample.t2])
    (@VRun libs (tt, [])).

End SampleNoOutput.

(** The sample tensors read as matrices, and the sample file system. *)
Module SampleView.

Import Sample.

Definition shape (m : matrix) : nat * nat :=
  (List.length m, List.length (hd [] m)).

Definition entry (m : matrix) (i j : nat) : Z := nth j (nth i m []) 0%Z.

Definition total (l : list Z) : Z := fold_right Z.add 0%Z l.

Definition view : MatrixView := @mkMatrixView libs shape entry Z.mul total.

Definition stored (w : world) (file : string) : option (string * Z) :=
  lookup file (files w).

End SampleView.

(** * Properties *)

Section Rules.

Context {L : Libs}.

Lemma wp_ret A (a : A) Q s : Q (Ok a) s -> wp (ret a) Q s.
Proof. exact (fun H => H). Qed.

Lemma wp_raise A (e : Exn) (Q : outcome Exn A -> St -> Prop) s :
  Q (Raise e) s -> wp (raise e) Q s.
Proof. exact (fun H => H). Qed.

Lemma wp_bind A B (m : M A) (k : A -> M B) Q s :
  wp m (fun r s' =>
          match r with
          | Ok a => wp (k a) Q s'
          | Raise e => Q (Raise e) s'
          end) s ->
  wp (bind m k) Q s.
Proof.
  unfold wp, bind. destruct (m s) as [[a | e] s']; trivial.
Qed.

Lemma wp_call A (c : Call) (inj : A -> Value) h Q s :
  (forall a w, Q (Ok a) (mkSt w (log s ++ [Returned c (inj a)]))) ->
  (forall e w, Q (Raise (LibError e)) (mkSt w (log s ++ [Raised c e]))) ->
  wp (call c inj h) Q s.
Proof.
  intros Hok Herr. unfold wp, call.
  destruct (h (world s)) as [[a | e] w]; simpl; auto.
Qed.

Lemma wp_print (str : string) Q s :
  Q (Ok tt) (mkSt (world s) (log s ++ [Returned (c_print str) VNone])) ->
  wp (print str) Q s.
Proof. exact (fun H => H). Qed.

Lemma wp_getitem A (l : list A) (i : nat) Q s :
  (forall x, nth_error l i = Some x -> Q (Ok x) s) ->
  (nth_error l i = None -> Q (Raise IndexError) s) ->
  wp (getitem l i) Q s.
Proof.
  intros Hsome Hnone. unfold getitem.
  destruct (nth_error l i) as [x |]; [apply wp_ret | apply wp_raise]; auto.
Qed.

(** A property of the log of every run follows from the same property as
    a postcondition. *)
Lemma wp_trace (P : list Event -> Prop) w :
  wp notebook (fun _ s => P (log s)) (start w) -> P (trace w).
Proof. exact (fun H => H). Qed.

Lemma wp_run (P : outcome Exn Globals -> list Event -> Prop) w :
  wp notebook (fun r s => P r (log s)) (start w) -> P (result w) (trace w).
Proof. exact (fun H => H). Qed.

(** [zip] of a one-element list. *)
Lemma zip_singleton A B (p : A) (c : B) (cs : list B) :
  zip [p] (c :: cs) = [(p, c)].
Proof. simpl. destruct cs; reflexivity. Qed.

Lemma zip_singleton_nil A B (p : A) : zip [p] (@nil B) = [].
Proof. reflexivity. Qed.

End Rules.

Ltac unfold_notebook :=
  unfold notebook, cell_model, cell_export, cell_convert, cell_inputs,
    cell_save_load, cell_run, cell_verify, cell_benchmark, MyModel_call,
    forward, torch_randn, torch_mm, torch_onnx_export,
    ModelProto_FromString, check_model, onnx_graph_to_caffe2_net,
    save_caffe2_net, load_caffe2_net, name_inputs, c2_native_run_net,
    Variable_cpu, assert_almost_equal, benchmark_pytorch_model,
    benchmark_caffe2_model.

Ltac wp_simpl :=
  cbv beta iota zeta; cbn [fst snd log world app start for_each map as_none].

Ltac wp_step :=
  lazymatch goal with
  | |- wp (bind _ _) _ _ => apply wp_bind
  | |- wp (ret _) _ _ => apply wp_ret
  | |- wp (raise _) _ _ => apply wp_raise
  | |- wp (call _ _ _) _ _ => apply wp_call; intros ? ?
  | |- wp (print _) _ _ => apply wp_print
  | |- wp (getitem _ _) _ _ => apply wp_getitem; [intros ? ? | intros ?]
  end; wp_simpl.

(** Case analysis on the verification loop: [caffe2_results] is empty or
    not, and the device test goes one way or the other. *)
Ltac wp_loop :=
  lazymatch goal with
  | |- wp (for_each (zip [_] ?cs) _) _ _ =>
      let E := fresh "Ecs" in
      destruct cs as [| ? ?] eqn:E;
      [ rewrite zip_singleton_nil
      | rewrite zip_singleton;
        unfold verify_body, assert_almost_equal, Variable_cpu;
        cbn [for_each fst snd];
        destruct (device_type _ =? _)%Z ];
      wp_simpl
  end.

Unset Implicit Arguments.

Section Claims.

Context {L : Libs}.

(** C2.  On 2-D tensors [m1] of shape [(n, k)] and [m2] of shape [(k, m)],
    [MyModel.forward(m1, m2)] returns the matrix product of [m1] and [m2],
    of shape [(n, m)], and computes nothing else: the value is the one the
    single [torch.mm] call returned, the world is as that call left it, and
    that call is all the log gains.  [torch.mm] is PyTorch's; what it
    promises is the hypothesis [torch_mm_contract]. *)
Theorem forward_returns_matrix_product (V : MatrixView) (self : MyModel)
    (m1 m2 : Var) (n k m : nat) (s : St) :
  torch_mm_contract V ->
  mv_shape V m1 = (n, k) ->
  mv_shape V m2 = (k, m) ->
  exists r s',
    forward self m1 m2 s = (Ok r, s') /\
    matrix_product V m1 m2 r /\
    mv_shape V r = (n, m) /\
    ext_torch_mm m1 m2 (world s) = (Ok r, world s') /\
    log s' = log s ++ [Returned (c_torch_mm m1 m2) (VVar r)].
Proof.
  intros Hmm H1 H2.
  destruct (Hmm m1 m2 n k m (world s) H1 H2) as (r & w' & Hcall & Hprod).
  exists r, (mkSt w' (log s ++ [Returned (c_torch_mm m1 m2) (VVar r)])).
  split; [| split; [exact Hprod | split; [| split; [exact Hcall | reflexivity]]]].
  - unfold forward, torch_mm, call. rewrite Hcall. reflexivity.
  - destruct Hprod as (n' & k' & m' & E1 & E2 & Er & _).
    rewrite H1 in E1. rewrite H2 in E2.
    injection E1 as <- <-. injection E2 as <-. exact Er.
Qed.

(** The verification loop on a CPU device option. *)
Lemma wp_verify_loop (d : DevOpt) (p : Var) (cs : list NdArray) Q s :
  device_type d <> caffe2_pb2_CUDA ->
  (cs = [] -> Q (Ok tt) s) ->
  (forall c cs' w, cs = c :: cs' ->
     Q (Ok tt)
       (mkSt w (log s ++
          [Returned (c_assert_almost_equal (numpy (cpu (data p))) c
                       expected_decimal) VNone]))) ->
  (forall c cs' e w, cs = c :: cs' ->
     Q (Raise (LibError e))
       (mkSt w (log s ++
          [Raised (c_assert_almost_equal (numpy (cpu (data p))) c
                     expected_decimal) e]))) ->
  wp (for_each (zip [p] cs) (verify_body d)) Q s.
Proof.
  intros Hd Hnil Hok Herr.
  destruct cs as [| c cs'].
  - rewrite zip_singleton_nil. apply wp_ret. auto.
  - rewrite zip_singleton. unfold verify_body, assert_almost_equal.
    cbn [for_each fst snd].
    apply Z.eqb_neq in Hd. rewrite Hd.
    repeat wp_step.
    + eapply Hok; reflexivity.
    + eapply Herr; reflexivity.
Qed.

(** C9.  No run of the notebook ever calls [p.cpu()], the only statement of
    the branch guarded by [device_opts.device_type == caffe2_pb2.CUDA]:
    the device option is built from [caffe2_pb2.CPU] and nothing rebinds or
    updates it.  This holds for every run, also one that ends in an
    exception. *)
Theorem cuda_branch_unreachable (w : World) :
  device_laws ->
  Forall (fun e => is_Variable_cpu e = false) (trace w).
Proof.
  intros [Hget Hne]. apply wp_trace. unfold_notebook.
  repeat wp_step.
  all: try (apply wp_verify_loop;
    [ rewrite Hget; exact Hne | intros Ecs | intros c cs' w' Ecs
    | intros c cs' ex w' Ecs ]).
  all: repeat wp_step.
  all: repeat constructor.
Qed.


(** C4.  Both runs get the same inputs.  In every run that reaches the
    Caffe2 run, [torch.mm] was called on the two tensors [inputs] made in
    the first cell, the arrays handed to [name_inputs] and through it to
    [c2_native_run_net] are [var.data.numpy()] of those same two tensors,
    element for element equal to them, and the notebook makes no other call
    between the PyTorch run and the Caffe2 run. *)
Theorem same_inputs_for_both_runs (w : World) (e : Event)
    (init_net predict_net : NetDef) (named : NamedInputs) :
  numpy_view ->
  In e (trace w) ->
  event_call e = c_c2_native_run_net init_net predict_net named ->
  exists t1 t2 f m nets p rest,
    let inputs := the_inputs t1 t2 in
    let caffe2_inputs := cell_inputs inputs in
    trace w =
      log_model t1 t2 ++ log_export t1 t2 f m ++ log_convert m nets ++
      log_save_load nets init_net predict_net ++
      Returned (c_torch_mm (Variable_ t1) (Variable_ t2)) (VVar p) ::
      Returned (c_name_inputs m caffe2_inputs) (VNamedInputs named) ::
      e :: rest /\
    Forall2 (fun a v => array_elements a = var_elements v)
            caffe2_inputs inputs.
Proof.
  intros Hview. revert e init_net predict_net named.
  apply wp_trace. unfold_notebook.
  repeat wp_step.
  all: try wp_loop.
  all: repeat wp_step.
  all: intros ev inet pnet nm Hin Hc; cbn [In] in Hin.
  all: repeat (destruct Hin as [<- | Hin]; [try discriminate Hc |]).
  all: try contradiction.
  all: cbn [event_call] in Hc; injection Hc as <- <- <-.
  all: do 7 eexists; split; [reflexivity |].
  all: repeat constructor; apply Hview.
Qed.

(** C7.  Exactly one precision assertion.  In every run in which the Caffe2
    run returns a non-empty [caffe2_results], [zip([pytorch_results],
    caffe2_results)] is the single pair of the PyTorch result and the first
    Caffe2 output, and the log holds exactly one call of
    [assert_almost_equal]: on that pair, with [decimal=5]. *)
Theorem exactly_one_assertion (w : World) (init_net predict_net : NetDef)
    (named : NamedInputs) (ws : Workspace) (caffe2_results : list NdArray) :
  device_laws ->
  In (Returned (c_c2_native_run_net init_net predict_net named)
               (VRun (ws, caffe2_results))) (trace w) ->
  (0 < List.length caffe2_results)%nat ->
  exists m1 m2 pytorch_results c e,
    In (Returned (c_torch_mm m1 m2) (VVar pytorch_results)) (trace w) /\
    nth_error caffe2_results 0 = Some c /\
    zip [pytorch_results] caffe2_results = [(pytorch_results, c)] /\
    filter is_assert (trace w) = [e] /\
    event_call e =
      c_assert_almost_equal (numpy (cpu (data pytorch_results))) c 5.
Proof.
  intros [Hget Hne]. revert init_net predict_net named ws caffe2_results.
  apply wp_trace. unfold_notebook.
  repeat wp_step.
  all: try (apply wp_verify_loop;
    [ rewrite Hget; exact Hne | intros Ecs | intros c cs' w' Ecs
    | intros c cs' ex w' Ecs ]).
  all: repeat wp_step.
  all: intros inet pnet nm wsp cs Hin Hlen; cbn [In] in Hin.
  all: repeat (destruct Hin as [Hin | Hin]; [try discriminate Hin |]).
  all: try contradiction.
  all: injection Hin as -> -> -> ->.
  all: cbn [snd] in *; subst cs; cbn [List.length] in Hlen; try lia.
  all: do 5 eexists.
  all: refine (conj _ (conj _ (conj _ (conj _ _))));
    [ cbn [In]; do 12 right; left; reflexivity
    | reflexivity | apply zip_singleton | reflexivity | reflexivity ].
Qed.

(** Nothing is derived from [None]. *)
Lemma flows_from_None (a : Value) : flows VNone a -> a = VNone.
Proof.
  intros H. inversion H as [| u v x Hd Hf]; subst.
  - reflexivity.
  - inversion Hd.
Qed.

Lemma flows_one (u v : Value) : derive u v -> flows u v.
Proof. intros H. eapply flows_step; [exact H | apply flows_refl]. Qed.

Ltac in_log := cbn; repeat (first [left; reflexivity | right]).

Section Links.

Variables (t1 t2 : Tensor) (f : bytes) (m : OnnxModel)
  (nets : NetDef * NetDef) (init_net predict_net : NetDef) (p : Var)
  (named : NamedInputs) (run : Workspace * list NdArray) (c : NdArray)
  (pytorch_times caffe2_times : list Duration) (tp tc : Duration).

Local Abbreviation l :=
  (complete_log t1 t2 f m nets init_net predict_net p named run c
                pytorch_times caffe2_times tp tc).

Lemma complete_log_steps : steps l = workflow.
Proof. reflexivity. Qed.

Lemma complete_log_define_export : step_consumes l Define Export.
Proof.
  exists (Returned (c_torch_randn [3; 4]%Z) (VTensor t1)),
         (Returned (c_torch_onnx_export MyModel_init (the_inputs t1 t2) [] true)
                   (VBytes f)).
  repeat split; try in_log.
  exists (VTensor t1), (VVars (the_inputs t1 t2)). repeat split.
  - eapply flows_step; [apply derive_Variable |].
    apply flows_one, derive_tuple. left; reflexivity.
  - in_log.
Qed.

Lemma complete_log_export_convert : step_consumes l Export Convert.
Proof.
  exists (Returned (c_ModelProto_FromString f) (VOnnxModel m)),
         (Returned (c_onnx_graph_to_caffe2_net (graph m)) (VNets nets)).
  repeat split; try in_log.
  exists (VOnnxModel m), (VOnnxGraph (graph m)). repeat split.
  - apply flows_one, derive_graph.
  - in_log.
Qed.

Lemma complete_log_run_assert : step_consumes l RunBoth AssertClose.
Proof.
  exists (Returned (c_torch_mm (Variable_ t1) (Variable_ t2)) (VVar p)),
         (Returned (c_assert_almost_equal (numpy (cpu (data p))) c 5) VNone).
  repeat split; try in_log.
  exists (VVar p), (VNdArray (numpy (cpu (data p)))). repeat split.
  - apply flows_one, derive_cpu_numpy.
  - in_log.
Qed.

Lemma complete_log_define_benchmark : step_consumes l Define Benchmark.
Proof.
  exists (Returned (c_torch_randn [3; 4]%Z) (VTensor t1)),
         (Returned (c_benchmark_pytorch_model MyModel_init (the_inputs t1 t2))
                   (VTimes pytorch_times)).
  repeat split; try in_log.
  exists (VTensor t1), (VVars (the_inputs t1 t2)). repeat split.
  - eapply flows_step; [apply derive_Variable |].
    apply flows_one, derive_tuple. left; reflexivity.
  - in_log.
Qed.

End Links.

End Claims.

(** * The workflow, with the nets followed through the files *)

Section FlowRules.

Context {L : Libs}.

(** The rule for a library call that keeps what the handler did. *)
Lemma wp_call_eq A (c : Call) (inj : A -> Value) h Q s :
  (forall a w, h (world s) = (Ok a, w) ->
     Q (Ok a) (mkSt w (log s ++ [Returned c (inj a)]))) ->
  (forall e w, h (world s) = (Raise e, w) ->
     Q (Raise (LibError e)) (mkSt w (log s ++ [Raised c e]))) ->
  wp (call c inj h) Q s.
Proof.
  intros Hok Herr. unfold wp, call.
  destruct (h (world s)) as [[a | e] w] eqn:E; cbn [fst snd]; auto.
Qed.

Lemma step_consumes_app (l r : list Event) (s1 s2 : Step) :
  step_consumes l s1 s2 -> step_consumes (l ++ r) s1 s2.
Proof.
  intros (e1 & e2 & H1 & H2 & H).
  exists e1, e2. split; [| split]; try (apply in_or_app; left; assumption).
  exact H.
Qed.

(** No benchmark call consumes [None]. *)
Lemma benchmark_consumes_no_None (e1 e2 : Event) :
  event_output e1 = Some VNone -> in_step Benchmark e2 -> ~ consumes e1 e2.
Proof.
  intros Hout Hs (v & a & Hv & Hflow & Hargs).
  rewrite Hout in Hv. injection Hv as <-.
  apply flows_from_None in Hflow. subst a.
  unfold in_step in Hs.
  destruct e2 as [c x | c x]; destruct c; cbn in Hs, Hargs;
    try discriminate Hs; intuition discriminate.
Qed.

End FlowRules.

Ltac wp_step_eq :=
  lazymatch goal with
  | |- wp (call (c_save_caffe2_net _ _ _) _ _) _ _ =>
      apply wp_call_eq; intros ? ? ?; wp_simpl
  | |- wp (call (c_load_caffe2_net _) _ _) _ _ =>
      apply wp_call_eq; intros ? ? ?; wp_simpl
  | |- _ => wp_step
  end.

Section Files.

Context {L : Libs}.

Lemma init_file_not_predict_file : init_file <> predict_file.
Proof. apply String.eqb_neq. reflexivity. Qed.

Lemma init_file_not_predict_dump : init_file <> (predict_file ++ "txt")%string.
Proof. apply String.eqb_neq. reflexivity. Qed.

(** The two saves and two loads of the notebook, under [file_laws]: each
    load returns the net saved to its file. *)
Lemma loaded_is_saved (stored : World -> string -> option NetDef)
    (n1 n2 i p : NetDef) (u1 u2 : unit) (w w1 w2 w3 w4 : World) :
  file_laws stored ->
  ext_save_caffe2_net n1 init_file false w = (Ok u1, w1) ->
  ext_save_caffe2_net n2 predict_file true w1 = (Ok u2, w2) ->
  ext_load_caffe2_net init_file w2 = (Ok i, w3) ->
  ext_load_caffe2_net predict_file w3 = (Ok p, w4) ->
  i = n1 /\ p = n2.
Proof.
  intros [Hsave Hload] S1 S2 L1 L2.
  destruct (Hsave _ _ _ _ _ _ S1) as [A1 _].
  destruct (Hsave _ _ _ _ _ _ S2) as [A2 F2].
  destruct (Hload _ _ _ _ L1) as [B1 K1].
  destruct (Hload _ _ _ _ L2) as [B2 _].
  rewrite (F2 init_file init_file_not_predict_file init_file_not_predict_dump),
    A1 in B1.
  rewrite K1, A2 in B2.
  injection B1 as ->. injection B2 as ->. split; reflexivity.
Qed.

End Files.

Section VerifiedLog.

Context {L : Libs}.

Variables (t1 t2 : Tensor) (f : bytes) (m : OnnxModel)
  (nets : NetDef * NetDef) (p : Var) (named : NamedInputs)
  (run : Workspace * list NdArray) (c : NdArray)
  (pytorch_times caffe2_times : list Duration).

Local Abbreviation vl :=
  (verified_log t1 t2 f m nets p named run c pytorch_times caffe2_times).

Ltac in_vl := cbn; repeat (first [left; reflexivity | right]).

Lemma verified_log_define_export : step_consumes vl Define Export.
Proof.
  exists (Returned (c_torch_randn [3; 4]%Z) (VTensor t1)),
         (Returned (c_torch_onnx_export MyModel_init (the_inputs t1 t2) [] true)
                   (VBytes f)).
  repeat split; try in_vl.
  exists (VTensor t1), (VVars (the_inputs t1 t2)). repeat split.
  - eapply flows_step; [apply derive_Variable |].
    apply flows_one, derive_tuple. left; reflexivity.
  - in_vl.
Qed.

Lemma verified_log_export_convert : step_consumes vl Export Convert.
Proof.
  exists (Returned (c_ModelProto_FromString f) (VOnnxModel m)),
         (Returned (c_onnx_graph_to_caffe2_net (graph m)) (VNets nets)).
  repeat split; try in_vl.
  exists (VOnnxModel m), (VOnnxGraph (graph m)). repeat split.
  - apply flows_one, derive_graph.
  - in_vl.
Qed.

Lemma verified_log_convert_run : step_consumes vl Convert RunBoth.
Proof.
  exists (Returned (c_onnx_graph_to_caffe2_net (graph m)) (VNets nets)),
         (Returned (c_c2_native_run_net
                      (device_option_CopyFrom (fst nets) cpu_opts)
                      (device_option_CopyFrom (snd nets) cpu_opts) named)
                   (VRun run)).
  repeat split; try in_vl.
  exists (VNets nets), (VNetDef (device_option_CopyFrom (fst nets) cpu_opts)).
  repeat split.
  - eapply flows_step; [apply derive_fst |].
    apply flows_one, derive_CopyFrom.
  - in_vl.
Qed.

Lemma verified_log_run_assert : step_consumes vl RunBoth AssertClose.
Proof.
  exists (Returned (c_torch_mm (Variable_ t1) (Variable_ t2)) (VVar p)),
         (Returned (c_assert_almost_equal (numpy (cpu (data p))) c 5) VNone).
  repeat split; try in_vl.
  exists (VVar p), (VNdArray (numpy (cpu (data p)))). repeat split.
  - apply flows_one, derive_cpu_numpy.
  - in_vl.
Qed.

Lemma verified_log_define_benchmark : step_consumes vl Define Benchmark.
Proof.
  exists (Returned (c_torch_randn [3; 4]%Z) (VTensor t1)),
         (Returned (c_benchmark_pytorch_model MyModel_init (the_inputs t1 t2))
                   (VTimes pytorch_times)).
  repeat split; try in_vl.
  exists (VTensor t1), (VVars (the_inputs t1 t2)). repeat split.
  - eapply flows_step; [apply derive_Variable |].
    apply flows_one, derive_tuple. left; reflexivity.
  - in_vl.
Qed.

Lemma verified_log_convert_benchmark : step_consumes vl Convert Benchmark.
Proof.
  exists (Returned (c_onnx_graph_to_caffe2_net (graph m)) (VNets nets)),
         (Returned (c_benchmark_caffe2_model
                      (device_option_CopyFrom (fst nets) cpu_opts)
                      (device_option_CopyFrom (snd nets) cpu_opts))
                   (VTimes caffe2_times)).
  repeat split; try in_vl.
  exists (VNets nets), (VNetDef (device_option_CopyFrom (fst nets) cpu_opts)).
  repeat split.
  - eapply flows_step; [apply derive_fst |].
    apply flows_one, derive_CopyFrom.
  - in_vl.
Qed.

End VerifiedLog.

Ltac use_file_laws Hfiles :=
  cbn [world] in *;
  match goal with
  | S1 : ext_save_caffe2_net _ init_file false _ = _,
    S2 : ext_save_caffe2_net _ predict_file true _ = _,
    L1 : ext_load_caffe2_net init_file _ = _,
    L2 : ext_load_caffe2_net predict_file _ = _ |- _ =>
      destruct (loaded_is_saved _ _ _ _ _ _ _ _ _ _ _ _ Hfiles S1 S2 L1 L2)
        as [-> ->]
  end.

Section Amended.

Context {L : Libs}.

(** C3, as the code has it.  Take a run in which every library call
    returns and the Caffe2 run yields at least one output.  The steps happen
    in the order define, export, convert, run both, assert, benchmark, and
    each consumes the output of the one before it, except the last: the
    export takes the inputs made with the model, the converter the graph of
    the exported model, the Caffe2 run the converted nets (with the CPU
    device option copied in, saved and loaded back), the assertion the
    outputs of the two runs.  The benchmark does not consume the
    assertion's output, which is [None]; it takes the model's inputs and the
    converted nets the Caffe2 run took.  The save and load helpers are
    onnx-caffe2's; what they promise is the hypothesis [file_laws]. *)
Theorem workflow_order_and_dataflow
    (stored : World -> string -> option NetDef) (w : World) :
  device_laws ->
  file_laws stored ->
  forallb is_returned (trace w) = true ->
  (forall init_net predict_net named ws cs,
     In (Returned (c_c2_native_run_net init_net predict_net named)
                  (VRun (ws, cs))) (trace w) ->
     cs <> []) ->
  steps (trace w) = workflow /\
  step_consumes (trace w) Define Export /\
  step_consumes (trace w) Export Convert /\
  step_consumes (trace w) Convert RunBoth /\
  step_consumes (trace w) RunBoth AssertClose /\
  ~ step_consumes (trace w) AssertClose Benchmark /\
  step_consumes (trace w) Define Benchmark /\
  step_consumes (trace w) Convert Benchmark /\
  exists t1 t2 f m nets p named run c pytorch_times caffe2_times rest,
    trace w =
      verified_log t1 t2 f m nets p named run c pytorch_times caffe2_times
      ++ rest /\
    nth_error (snd run) 0 = Some c.
Proof.
  intros [Hget Hne] Hfiles.
  apply wp_trace. unfold_notebook.
  repeat wp_step_eq.
  all: try (apply wp_verify_loop;
    [ rewrite Hget; exact Hne | intros Ecs | intros c cs' w' Ecs
    | intros c cs' ex w' Ecs ]).
  all: repeat wp_step_eq.
  all: intros Hall Hout; try (cbn in Hall; discriminate Hall).
  all: try (exfalso;
            match goal with
            | r : (Workspace * list NdArray)%type |- _ =>
                destruct r as [ws cs]; cbn [snd] in *; subst cs;
                refine (Hout _ _ _ ws [] _ eq_refl);
                cbn [In]; do 14 right; left; reflexivity
            end).
  all: use_file_laws Hfiles.
  all: match goal with
       | |- steps ?l = _ /\ _ =>
           assert (E : exists t1 t2 f m nets p named run c pts cts rest,
                     l = verified_log t1 t2 f m nets p named run c pts cts
                         ++ rest /\
                     nth_error (snd run) 0 = Some c)
             by (do 11 eexists; exists (skipn 19 l);
                 unfold verified_log;
                 cbn [app skipn log_model log_export log_convert log_save_load
                      log_pytorch_run log_caffe2_run log_verify];
                 split; [reflexivity | rewrite Ecs; reflexivity])
       end.
  all: refine (conj eq_refl (conj _ (conj _ (conj _ (conj _ (conj _
                 (conj _ (conj _ E)))))))).
  all: try (destruct E as (t1 & t2 & f & m & nets & p & named & run & c0 &
                           pts & cts & rest & E & _);
            rewrite E; apply step_consumes_app;
            first [ apply verified_log_define_export
                  | apply verified_log_export_convert
                  | apply verified_log_convert_run
                  | apply verified_log_run_assert
                  | apply verified_log_define_benchmark
                  | apply verified_log_convert_benchmark ]).
  all: intros (e1 & e2 & Hin1 & Hin2 & Hs1 & Hs2 & Hc).
  all: refine (benchmark_consumes_no_None e1 e2 _ Hs2 Hc).
  all: cbn [In] in Hin1; unfold in_step in Hs1.
  all: repeat (destruct Hin1 as [<- | Hin1]; [try discriminate Hs1 |]).
  all: try contradiction.
  all: reflexivity.
Qed.

End Amended.

(** * The notebook on the executable instance *)

Module SampleRun.

Import Sample.

Lemma sample_trace_eq : trace w0 = sample_trace.
Proof. vm_compute. reflexivity. Qed.

Lemma sample_result_eq : result w0 = Ok sample_globals.
Proof. vm_compute. reflexivity. Qed.

Lemma sample_device_laws : device_laws.
Proof. split; [intros t i; reflexivity | discriminate]. Qed.

Ltac sample_log :=
  rewrite sample_trace_eq;
  cbn [sample_trace complete_log log_model log_export log_convert
       log_save_load log_pytorch_run log_caffe2_run log_verify log_benchmark
       app In].

(** C3, as stated, fails: in the run of the notebook on the sample world
    the benchmark does not consume the output of the assertion.  The
    assertion returns [None], nothing is derived from it, and the two
    benchmark calls take the model with its inputs and the two loaded
    nets. *)
Lemma sample_run_is_no_pipeline : ~ pipeline (trace w0).
Proof.
  intros (_ & _ & _ & _ & _ & e1 & e2 & Hin1 & Hin2 & Hs1 & Hs2 & Hc).
  destruct Hc as (v & a & Hout & Hflow & Hargs).
  unfold in_step in Hs1, Hs2.
  revert Hin1 Hin2. sample_log. intros Hin1 Hin2.
  repeat (destruct Hin1 as [<- | Hin1]; [try discriminate Hs1 |]);
    try contradiction.
  cbn [event_output] in Hout. injection Hout as <-.
  apply flows_from_None in Hflow. subst a.
  repeat (destruct Hin2 as [<- | Hin2]; [try discriminate Hs2 |]);
    try contradiction.
  all: cbn in Hargs; intuition discriminate.
Qed.

Ltac sample_laws := split; [intros t i; reflexivity | discriminate].

Lemma cuda_branch_unreachable_witness :
  device_laws /\ Forall (fun e => is_Variable_cpu e = false) (trace w0).
Proof.
  assert (H : device_laws) by sample_laws.
  split; [exact H | exact (cuda_branch_unreachable w0 H)].
Defined.


Lemma same_inputs_for_both_runs_witness :
  numpy_view /\
  In e_run (trace w0) /\
  event_call e_run = c_c2_native_run_net init_cpu predict_cpu [t1; t2] /\
  exists x1 x2 f m nets p rest,
    let inputs := the_inputs x1 x2 in
    let caffe2_inputs := cell_inputs inputs in
    trace w0 =
      log_model x1 x2 ++ log_export x1 x2 f m ++ log_convert m nets ++
      log_save_load nets init_cpu predict_cpu ++
      Returned (c_torch_mm (Variable_ x1) (Variable_ x2)) (VVar p) ::
      Returned (c_name_inputs m caffe2_inputs) (VNamedInputs [t1; t2]) ::
      e_run :: rest /\
    Forall2 (fun a v => array_elements a = var_elements v)
            caffe2_inputs inputs.
Proof.
  assert (Hv : numpy_view) by (intros v; reflexivity).
  assert (Hin : In e_run (trace w0))
    by (sample_log; do 14 right; left; reflexivity).
  assert (Hc : event_call e_run =
               c_c2_native_run_net init_cpu predict_cpu [t1; t2])
    by reflexivity.
  split; [exact Hv | split; [exact Hin | split; [exact Hc |]]].
  exact (same_inputs_for_both_runs w0 e_run init_cpu predict_cpu [t1; t2]
           Hv Hin Hc).
Defined.

Lemma exactly_one_assertion_witness :
  device_laws /\
  In (Returned (c_c2_native_run_net init_cpu predict_cpu [t1; t2])
               (VRun (tt, [product]))) (trace w0) /\
  (0 < List.length [product])%nat /\
  exists m1 m2 pytorch_results c e,
    In (Returned (c_torch_mm m1 m2) (VVar pytorch_results)) (trace w0) /\
    nth_error [product] 0 = Some c /\
    zip [pytorch_results] [product] =
      [(pytorch_results, c)] /\
    filter is_assert (trace w0) = [e] /\
    event_call e =
      c_assert_almost_equal (numpy (cpu (data pytorch_results))) c 5.
Proof.
  assert (H : device_laws) by sample_laws.
  assert (Hin : In (Returned (c_c2_native_run_net init_cpu predict_cpu [t1; t2])
                             (VRun (tt, [product])))
                   (trace w0))
    by (sample_log; do 14 right; left; reflexivity).
  assert (Hlen : (0 < List.length [product])%nat)
    by (cbn; lia).
  split; [exact H | split; [exact Hin | split; [exact Hlen |]]].
  exact (exactly_one_assertion w0 init_cpu predict_cpu [t1; t2] tt [product]
           H Hin Hlen).
Defined.

(** On the sample run every link of the pipeline but the last one holds;
    the nets the Caffe2 run takes equal the converted ones there because the
    sample file system returns what was saved. *)
Lemma sample_run_pipeline_but_last :
  steps (trace w0) = workflow /\
  step_consumes (trace w0) Define Export /\
  step_consumes (trace w0) Export Convert /\
  step_consumes (trace w0) Convert RunBoth /\
  step_consumes (trace w0) RunBoth AssertClose.
Proof.
  rewrite sample_trace_eq. unfold sample_trace.
  split; [reflexivity |].
  split; [apply complete_log_define_export |].
  split; [apply complete_log_export_convert |].
  split; [| apply complete_log_run_assert].
  exists e_convert, e_run.
  refine (conj _ (conj _ (conj eq_refl (conj eq_refl _)))).
  - cbn. do 7 right. left. reflexivity.
  - cbn. do 14 right. left. reflexivity.
  - exists (VNets converted), (VNetDef init_cpu).
    refine (conj eq_refl (conj _ _)).
    + eapply flows_step; [apply derive_fst |].
      apply flows_one. exact (derive_CopyFrom (fst converted) (0%Z, 0%Z)).
    + left. reflexivity.
Qed.

End SampleRun.

(** * The sample libraries meet the contracts *)

Module ContractRun.

Import Sample SampleView.

Lemma total_zero (A : Type) (l : list A) : total (map (fun _ => 0%Z) l) = 0%Z.
Proof. induction l as [| x l IH]; [reflexivity | exact IH]. Qed.

(** The sample dot product of a row with a column of [b] is the sum over
    the rows of [b]. *)
Lemma dot_total (g : list Z -> Z) (b : matrix) (row : list Z) :
  dot row (map g b) =
  total (map (fun l => (nth l row 0 * g (nth l b []))%Z) (seq 0 (List.length b))).
Proof.
  revert row. induction b as [| x b IH]; intros row.
  - destruct row; reflexivity.
  - destruct row as [| y row].
    + cbn [map List.length]. unfold dot. cbn [combine map fold_right].
      rewrite (map_ext (fun l => (nth l [] 0 * g (nth l (x :: b) []))%Z)
                       (fun _ => 0%Z)).
      * symmetry. apply total_zero.
      * intros l. destruct l; reflexivity.
    + cbn [map List.length seq]. unfold dot, total in *.
      cbn [combine map fold_right fst snd nth].
      rewrite <- seq_shift, map_map. cbn [nth].
      f_equal. apply IH.
Qed.

Lemma sample_mm_contract : torch_mm_contract view.
Proof.
  intros a b n k m w Ha Hb.
  cbn [mv_shape view] in Ha, Hb. unfold shape in Ha, Hb.
  injection Ha as Hn Hk. injection Hb as Hk' Hm.
  exists (matmul a b), w. split.
  - cbn [ext_torch_mm libs]. unfold mm. rewrite Hk, Hk', Nat.eqb_refl.
    reflexivity.
  - exists n, k, m. cbn [mv_shape mv_entry mv_mul mv_sum view].
    unfold shape, entry. rewrite Hn, Hk, Hk', Hm.
    split; [reflexivity | split; [reflexivity | split]].
    + unfold matmul. rewrite length_map, Hn. f_equal.
      destruct a as [| row a'].
      * cbn in Hn, Hk. subst n k.
        destruct b; [cbn in Hm; subst m; reflexivity | discriminate Hk'].
      * cbn [map hd]. rewrite length_map, length_seq. exact Hm.
    + intros i j Hi Hj. unfold matmul.
      rewrite (nth_indep _ [] ((fun row => map (fun j0 => dot row (col j0 b))
                                 (seq 0 (List.length (hd [] b)))) []))
        by (rewrite length_map; lia).
      rewrite (map_nth (fun row => map (fun j0 => dot row (col j0 b))
                          (seq 0 (List.length (hd [] b)))) a [] i).
      rewrite Hm.
      rewrite (nth_indep _ 0%Z ((fun j0 => dot (nth i a []) (col j0 b)) 0%nat))
        by (rewrite length_map, length_seq; exact Hj).
      rewrite (map_nth (fun j0 => dot (nth i a []) (col j0 b)) (seq 0 m) 0%nat j).
      rewrite seq_nth by exact Hj. cbn [Nat.add].
      unfold col. rewrite (dot_total (fun r => nth j r 0%Z) b (nth i a [])).
      rewrite Hk'. reflexivity.
Qed.

Lemma sample_file_laws : file_laws stored.
Proof.
  split.
  - intros net file txt w u w' H. cbn [ext_save_caffe2_net libs] in H.
    injection H as _ <-. unfold stored, lookup. cbn [files find fst snd].
    rewrite String.eqb_refl. split; [reflexivity |].
    intros other Hneq _.
    assert (E : String.eqb file other = false)
      by (apply String.eqb_neq; intros ->; apply Hneq; reflexivity).
    rewrite E. reflexivity.
  - intros file w net w' H. cbn [ext_load_caffe2_net libs] in H.
    unfold stored.
    destruct (lookup file (files w)) as [n |]; [| discriminate H].
    injection H as -> ->. split; reflexivity || (intros; reflexivity).
Qed.

Lemma forward_returns_matrix_product_witness :
  torch_mm_contract view /\
  mv_shape view t1 = (3, 4) /\
  mv_shape view t2 = (4, 5) /\
  exists r s',
    forward MyModel_init t1 t2 (start w0) = (Ok r, s') /\
    matrix_product view t1 t2 r /\
    mv_shape view r = (3, 5) /\
    log s' = [Returned (c_torch_mm t1 t2) (VVar r)].
Proof.
  assert (H1 : mv_shape view t1 = (3, 4)) by reflexivity.
  assert (H2 : mv_shape view t2 = (4, 5)) by reflexivity.
  split; [exact sample_mm_contract | split; [exact H1 | split; [exact H2 |]]].
  destruct (@forward_returns_matrix_product libs view MyModel_init t1 t2 3 4 5
              (@start libs w0) sample_mm_contract H1 H2)
    as (r & s' & Hf & Hp & Hs & _ & Hl).
  exists r, s'. split; [exact Hf | split; [exact Hp | split; [exact Hs | exact Hl]]].
Defined.

Lemma sample_all_returned : forallb is_returned sample_trace = true.
Proof. reflexivity. Qed.

Lemma workflow_order_and_dataflow_witness :
  device_laws /\
  file_laws stored /\
  forallb is_returned (trace w0) = true /\
  (forall init_net predict_net named ws cs,
     In (Returned (c_c2_native_run_net init_net predict_net named)
                  (VRun (ws, cs))) (trace w0) ->
     cs <> []) /\
  steps (trace w0) = workflow /\
  step_consumes (trace w0) Define Export /\
  step_consumes (trace w0) Export Convert /\
  step_consumes (trace w0) Convert RunBoth /\
  step_consumes (trace w0) RunBoth AssertClose /\
  ~ step_consumes (trace w0) AssertClose Benchmark.
Proof.
  assert (Hd : device_laws) by (split; [intros t i; reflexivity | discriminate]).
  assert (Hall : forallb is_returned (trace w0) = true)
    by (rewrite SampleRun.sample_trace_eq; reflexivity).
  assert (Hout : forall init_net predict_net named ws cs,
             In (Returned (c_c2_native_run_net init_net predict_net named)
                          (VRun (ws, cs))) (trace w0) ->
             cs <> []).
  { intros i p n ws cs Hin. rewrite SampleRun.sample_trace_eq in Hin.
    cbn [sample_trace complete_log log_model log_export log_convert
         log_save_load log_pytorch_run log_caffe2_run log_verify log_benchmark
         app In] in Hin.
    repeat (destruct Hin as [Hin | Hin]; [try discriminate Hin |]);
      try contradiction.
    injection Hin as _ _ _ _ <-. discriminate. }
  split; [exact Hd | split; [exact sample_file_laws |
    split; [exact Hall | split; [exact Hout |]]]].
  destruct (@workflow_order_and_dataflow libs stored w0 Hd sample_file_laws
              Hall Hout)
    as (H0 & H1 & H2 & H3 & H4 & H5 & _).
  split; [exact H0 | split; [exact H1 | split; [exact H2 |
    split; [exact H3 | split; [exact H4 | exact H5]]]]].
Defined.

End ContractRun.

(** * Further properties of the notebook *)

Ltac split_at n :=
  match goal with
  | |- exists pre rest, ?l = _ /\ _ =>
      exists (firstn n l), (skipn (S (S n)) l); split; reflexivity
  end.

Ltac find_in := cbn [In]; repeat (first [left; reflexivity | right]).

Ltac destruct_pairs :=
  repeat match goal with
         | x : (_ * _)%type |- _ => destruct x
         end; cbn [fst snd] in *.

Ltac empty_times :=
  repeat match goal with
         | H : nth_error ?l 0 = None |- _ =>
             destruct l; [clear H | discriminate H]
         end.

Section Runs.

Context {L : Libs}.

(** X1.  How a run can end.  The notebook handles no exception: when a run
    completes, every call in its log returned; when a library call raises,
    that call is the last event of the log and its exception is the result
    of the run.  The only exception of the notebook's own making is the
    [IndexError] of indexing an empty benchmark result with [[0]]; calling
    the model never fails on the number of arguments. *)
Theorem run_outcomes (w : World) :
  match result w with
  | Ok _ => forallb is_returned (trace w) = true
  | Raise (LibError e) =>
      exists pre c,
        trace w = pre ++ [Raised c e] /\ forallb is_returned pre = true
  | Raise IndexError =>
      forallb is_returned (trace w) = true /\
      exists e, In e (trace w) /\ empty_benchmark e
  | Raise TypeError => False
  end.
Proof.
  pattern (result w), (trace w). apply wp_run. unfold_notebook.
  repeat wp_step.
  all: try wp_loop.
  all: repeat wp_step.
  all: try reflexivity.
  all: try (match goal with
            | |- exists pre c, ?l = _ /\ _ =>
                exists (removelast l); eexists; split; reflexivity
            end).
  all: empty_times; split; [reflexivity |].
  all: first
    [ match goal with
      | |- context [Returned (c_benchmark_pytorch_model ?m ?i) (VTimes [])] =>
          exists (Returned (c_benchmark_pytorch_model m i) (VTimes []));
          split; [find_in | left; eauto]
      end
    | match goal with
      | |- context [Returned (c_benchmark_caffe2_model ?i ?p) (VTimes [])] =>
          exists (Returned (c_benchmark_caffe2_model i p) (VTimes []));
          split; [find_in | right; eauto]
      end ].
Qed.

(** X2.  An empty [caffe2_results] passes unchecked.  When the Caffe2 run
    returns no outputs, [zip] yields no pair: the loop body never runs, no
    assertion is made, and the success line is printed all the same. *)
Theorem empty_results_pass_unchecked (w : World) (init_net predict_net : NetDef)
    (named : NamedInputs) (ws : Workspace) :
  In (Returned (c_c2_native_run_net init_net predict_net named) (VRun (ws, [])))
     (trace w) ->
  filter is_assert (trace w) = [] /\
  filter is_Variable_cpu (trace w) = [] /\
  In (Returned (c_print success_message) VNone) (trace w).
Proof.
  revert init_net predict_net named ws.
  apply wp_trace. unfold_notebook.
  repeat wp_step.
  all: try wp_loop.
  all: repeat wp_step.
  all: intros inet pnet nm wsp Hin; cbn [In] in Hin.
  all: repeat (destruct Hin as [Hin | Hin]; [try discriminate Hin |]).
  all: try contradiction.
  all: injection Hin as -> -> -> ->; cbn [snd] in *; try discriminate.
  all: refine (conj eq_refl (conj eq_refl _)); find_in.
Qed.

(** X3.  What the success line stands for.  In every run that prints it,
    the Caffe2 run returned, and either it returned no output and no
    assertion was made, or the one assertion of the run, on the PyTorch
    result and the first Caffe2 output with [decimal=5], returned without
    raising. *)
Theorem success_line_means (w : World) :
  In (Returned (c_print success_message) VNone) (trace w) ->
  exists init_net predict_net named ws caffe2_results,
    In (Returned (c_c2_native_run_net init_net predict_net named)
                 (VRun (ws, caffe2_results))) (trace w) /\
    match caffe2_results with
    | [] => filter is_assert (trace w) = []
    | c :: _ =>
        exists m1 m2 p,
          In (Returned (c_torch_mm m1 m2) (VVar p)) (trace w) /\
          filter is_assert (trace w) =
            [Returned (c_assert_almost_equal (numpy (cpu (data p))) c 5) VNone]
    end.
Proof.
  apply wp_trace. unfold_notebook.
  repeat wp_step.
  all: try wp_loop.
  all: repeat wp_step.
  all: intros Hin; cbn [In] in Hin.
  all: repeat (destruct Hin as [Hin | Hin]; [try discriminate Hin |]).
  all: try contradiction.
  all: match goal with
       | |- context [Returned (c_c2_native_run_net ?i ?p ?n) (VRun ?r)] =>
           exists i, p, n, (fst r), (snd r)
       end.
  all: split; [destruct_pairs; find_in |].
  all: match goal with H : snd _ = _ |- _ => rewrite H end.
  all: try reflexivity.
  all: do 3 eexists; split; [cbn [In]; do 12 right; left; reflexivity | reflexivity].
Qed.

(** X4.  The benchmark is gated by the precision check.  In every run in
    which [benchmark_pytorch_model] is called, the call comes directly
    after the success line, and every call before it returned. *)
Theorem benchmark_only_after_success_line (w : World) (e : Event)
    (model : MyModel) (inputs : list Var) :
  In e (trace w) ->
  event_call e = c_benchmark_pytorch_model model inputs ->
  exists pre rest,
    trace w = pre ++ Returned (c_print success_message) VNone :: e :: rest /\
    forallb is_returned pre = true.
Proof.
  revert e model inputs. apply wp_trace. unfold_notebook.
  repeat wp_step.
  all: try wp_loop.
  all: repeat wp_step.
  all: intros ev md inp Hin Hc; cbn [In] in Hin.
  all: repeat (destruct Hin as [<- | Hin]; [try discriminate Hc |]).
  all: try contradiction.
  all: first [split_at 15 | split_at 16 | split_at 17].
Qed.

(** X5.  Nets are loaded only from files the same run has saved.  Every
    call of [load_caffe2_net] on a file comes after a call of
    [save_caffe2_net] on that file that returned. *)
Theorem load_only_saved_files (w : World) (e : Event) (file : string) :
  In e (trace w) ->
  event_call e = c_load_caffe2_net file ->
  exists pre rest net output_txt,
    trace w = pre ++ e :: rest /\
    In (Returned (c_save_caffe2_net net file output_txt) VNone) pre.
Proof.
  revert e file. apply wp_trace. unfold_notebook.
  repeat wp_step.
  all: try wp_loop.
  all: repeat wp_step.
  all: intros ev fl Hin Hc; cbn [In] in Hin.
  all: repeat (destruct Hin as [<- | Hin]; [try discriminate Hc |]).
  all: try contradiction.
  all: cbn [event_call] in Hc; injection Hc as <-.
  all: match goal with
       | |- exists pre rest net txt, ?l = _ /\ _ =>
           first
             [ exists (firstn 10 l), (skipn 11 l);
               do 2 eexists; split; [reflexivity | find_in]
             | exists (firstn 11 l), (skipn 12 l);
               do 2 eexists; split; [reflexivity | find_in] ]
       end.
Qed.

(** X6.  The steps never go backwards.  In every run, complete or ended by
    an exception, with or without Caffe2 outputs, the steps that happen
    happen in workflow order. *)
Theorem steps_in_workflow_order (w : World) :
  StronglySorted lt (map step_index (steps (trace w))).
Proof.
  apply wp_trace. unfold_notebook.
  repeat wp_step.
  all: try wp_loop.
  all: repeat wp_step.
  all: cbn; repeat constructor.
Qed.

(** X7.  What is benchmarked is what was verified.  Every call of
    [benchmark_caffe2_model] takes the two nets the Caffe2 run was given,
    and every call of [benchmark_pytorch_model] takes the model with the
    two tensors [torch.mm] was called on. *)
Theorem benchmark_takes_what_was_run (w : World) (e : Event) :
  In e (trace w) ->
  match event_call e with
  | c_benchmark_caffe2_model init_net predict_net =>
      exists named run,
        In (Returned (c_c2_native_run_net init_net predict_net named) (VRun run))
           (trace w)
  | c_benchmark_pytorch_model model inputs =>
      exists m1 m2 r,
        inputs = [m1; m2] /\
        In (Returned (c_torch_mm m1 m2) (VVar r)) (trace w)
  | _ => True
  end.
Proof.
  revert e. apply wp_trace. unfold_notebook.
  repeat wp_step.
  all: try wp_loop.
  all: repeat wp_step.
  all: intros ev Hin; cbn [In] in Hin.
  all: repeat (destruct Hin as [<- | Hin]; [exact I || idtac |]).
  all: try contradiction.
  all: cbn [event_call].
  all: first
    [ do 2 eexists; cbn [In]; do 14 right; left; reflexivity
    | do 3 eexists; split;
      [reflexivity | cbn [In]; do 12 right; left; reflexivity] ].
Qed.

(** X8.  Which net goes into which file.  Every call of [save_caffe2_net]
    saves a net the converter returned, with the CPU device option already
    copied into it: the init net to [init_file] without a text dump, the
    predict net to [predict_file] with one. *)
Theorem saved_nets_carry_cpu_option (w : World) (e : Event) (net : NetDef)
    (file : string) (output_txt : bool) :
  In e (trace w) ->
  event_call e = c_save_caffe2_net net file output_txt ->
  exists g nets,
    In (Returned (c_onnx_graph_to_caffe2_net g) (VNets nets)) (trace w) /\
    ((net = device_option_CopyFrom (fst nets) cpu_opts /\
      file = init_file /\ output_txt = false) \/
     (net = device_option_CopyFrom (snd nets) cpu_opts /\
      file = predict_file /\ output_txt = true)).
Proof.
  revert e net file output_txt. apply wp_trace. unfold_notebook.
  repeat wp_step.
  all: try wp_loop.
  all: repeat wp_step.
  all: intros ev nt fl txt Hin Hc; cbn [In] in Hin.
  all: repeat (destruct Hin as [<- | Hin]; [try discriminate Hc |]).
  all: try contradiction.
  all: cbn [event_call] in Hc; injection Hc as <- <- <-.
  all: do 2 eexists; split; [cbn [In]; do 7 right; left; reflexivity |].
  all: first [left; repeat split; reflexivity | right; repeat split; reflexivity].
Qed.

Lemma skipn_length_app (A : Type) (l x : list A) :
  skipn (List.length l) (l ++ x) = x.
Proof. induction l as [| a l IH]; [reflexivity | exact IH]. Qed.

(** X9.  The benchmark cell's report.  Both helpers run before anything is
    printed.  When both return, the cell prints element 0 of each result
    and ignores the rest; an empty PyTorch result ends the cell in
    [IndexError] with nothing printed, an empty Caffe2 result ends it in
    [IndexError] after the PyTorch line. *)
Theorem benchmark_report_cases (model : MyModel) (inputs : list Var)
    (init_net predict_net : NetDef) (s : St)
    (pytorch_times caffe2_times : list Duration) (w1 w2 : World) :
  ext_benchmark_pytorch_model model inputs (world s) = (Ok pytorch_times, w1) ->
  ext_benchmark_caffe2_model init_net predict_net w1 = (Ok caffe2_times, w2) ->
  let called :=
    [Returned (c_benchmark_pytorch_model model inputs) (VTimes pytorch_times);
     Returned (c_benchmark_caffe2_model init_net predict_net)
              (VTimes caffe2_times)] in
  let pytorch_line t :=
    Returned (c_print ("PyTorch model's execution time is "
                       ++ format_time t ++ " / iteration.")%string) VNone in
  let caffe2_line t :=
    Returned (c_print ("Caffe2 model's execution time is "
                       ++ format_time t ++ " / iteration.")%string) VNone in
  cell_benchmark model inputs init_net predict_net s =
  match pytorch_times, caffe2_times with
  | [], _ => (Raise IndexError, mkSt w2 (log s ++ called))
  | tp :: _, [] =>
      (Raise IndexError, mkSt w2 (log s ++ called ++ [pytorch_line tp]))
  | tp :: _, tc :: _ =>
      (Ok (pytorch_times, caffe2_times),
       mkSt w2 (log s ++ called ++ [pytorch_line tp; caffe2_line tc]))
  end.
Proof.
  intros Hp Hc called pytorch_line caffe2_line.
  unfold cell_benchmark, benchmark_pytorch_model, benchmark_caffe2_model,
    bind, call, print, getitem, ret, raise.
  rewrite Hp. cbn [world log]. rewrite Hc.
  destruct pytorch_times as [| tp pts]; destruct caffe2_times as [| tc cts];
    cbn [nth_error world log]; subst called pytorch_line caffe2_line;
    cbn [app]; rewrite <- ?app_assoc; reflexivity.
Qed.

(** X10.  On a CUDA device option the loop calls [p.cpu()] first and drops
    what it returns: if that call raises, nothing is compared; if it
    returns, the assertion that follows compares exactly what it compares
    on CPU, [p.data.cpu().numpy()] with the first Caffe2 output. *)
Theorem cuda_path_compares_same_arrays (d : DevOpt) (p : Var) (c : NdArray)
    (cs : list NdArray) (s : St) :
  device_type d = caffe2_pb2_CUDA ->
  exists ev rest,
    appended (cell_verify d p (c :: cs)) s = ev :: rest /\
    event_call ev = c_Variable_cpu p /\
    match ev with
    | Raised _ _ => rest = []
    | Returned _ _ =>
        exists ea rest',
          rest = ea :: rest' /\
          event_call ea =
            c_assert_almost_equal (numpy (cpu (data p))) c expected_decimal
    end.
Proof.
  intros Hd. apply Z.eqb_eq in Hd.
  unfold appended, cell_verify. rewrite zip_singleton.
  unfold verify_body, Variable_cpu, assert_almost_equal, print, bind, call, ret.
  cbn [for_each fst snd]. unfold bind, ret. rewrite Hd.
  destruct (ext_Variable_cpu p (world s)) as [[r | ex] w1]; cbn [world log fst snd].
  - destruct (ext_assert_almost_equal (numpy (cpu (data p))) c expected_decimal w1)
      as [[u | ex] w2]; cbn [world log fst snd];
      rewrite <- ?app_assoc, skipn_length_app; cbn [app];
      do 2 eexists; (split; [reflexivity | split; [reflexivity |]]);
      do 2 eexists; split; reflexivity.
  - rewrite skipn_length_app. do 2 eexists.
    split; [reflexivity | split; reflexivity].
Qed.

End Runs.

(** * The further properties on the executable instances *)

Module MoreRuns.

Import Sample.

Lemma more_trace_eq : trace w0 = sample_trace.
Proof. vm_compute. reflexivity. Qed.

Ltac sample_log :=
  rewrite more_trace_eq;
  cbn [sample_trace complete_log log_model log_export log_convert
       log_save_load log_pytorch_run log_caffe2_run log_verify log_benchmark
       app In].

Lemma success_line_means_witness :
  In e_success (trace w0) /\
  exists init_net predict_net named ws caffe2_results,
    In (Returned (c_c2_native_run_net init_net predict_net named)
                 (VRun (ws, caffe2_results))) (trace w0) /\
    match caffe2_results with
    | [] => filter is_assert (trace w0) = []
    | c :: _ =>
        exists m1 m2 p,
          In (Returned (c_torch_mm m1 m2) (VVar p)) (trace w0) /\
          filter is_assert (trace w0) =
            [Returned (c_assert_almost_equal (numpy (cpu (data p))) c 5) VNone]
    end.
Proof.
  assert (Hin : In e_success (trace w0))
    by (sample_log; do 16 right; left; reflexivity).
  split; [exact Hin | exact (success_line_means w0 Hin)].
Defined.

Lemma benchmark_only_after_success_line_witness :
  In e_bench_pytorch (trace w0) /\
  event_call e_bench_pytorch = c_benchmark_pytorch_model MyModel_init [t1; t2] /\
  exists pre rest,
    trace w0 = pre ++ e_success :: e_bench_pytorch :: rest /\
    forallb is_returned pre = true.
Proof.
  assert (Hin : In e_bench_pytorch (trace w0))
    by (sample_log; do 17 right; left; reflexivity).
  assert (Hc : event_call e_bench_pytorch =
               c_benchmark_pytorch_model MyModel_init [t1; t2]) by reflexivity.
  split; [exact Hin | split; [exact Hc |]].
  exact (benchmark_only_after_success_line w0 e_bench_pytorch MyModel_init
           [t1; t2] Hin Hc).
Defined.

Lemma load_only_saved_files_witness :
  In e_load_init (trace w0) /\
  event_call e_load_init = c_load_caffe2_net init_file /\
  exists pre rest net output_txt,
    trace w0 = pre ++ e_load_init :: rest /\
    In (Returned (c_save_caffe2_net net init_file output_txt) VNone) pre.
Proof.
  assert (Hin : In e_load_init (trace w0))
    by (sample_log; do 10 right; left; reflexivity).
  assert (Hc : event_call e_load_init = c_load_caffe2_net init_file)
    by reflexivity.
  split; [exact Hin | split; [exact Hc |]].
  exact (load_only_saved_files w0 e_load_init init_file Hin Hc).
Defined.

Lemma benchmark_takes_what_was_run_witness :
  In e_bench_caffe2 (trace w0) /\
  exists named run,
    In (Returned (c_c2_native_run_net init_cpu predict_cpu named) (VRun run))
       (trace w0).
Proof.
  assert (Hin : In e_bench_caffe2 (trace w0))
    by (sample_log; do 18 right; left; reflexivity).
  split; [exact Hin |].
  exact (benchmark_takes_what_was_run w0 e_bench_caffe2 Hin).
Defined.

Lemma saved_nets_carry_cpu_option_witness :
  In e_save_init (trace w0) /\
  event_call e_save_init = c_save_caffe2_net init_cpu init_file false /\
  exists g nets,
    In (Returned (c_onnx_graph_to_caffe2_net g) (VNets nets)) (trace w0) /\
    ((init_cpu = device_option_CopyFrom (fst nets) cpu_opts /\
      init_file = init_file /\ false = false) \/
     (init_cpu = device_option_CopyFrom (snd nets) cpu_opts /\
      init_file = predict_file /\ false = true)).
Proof.
  assert (Hin : In e_save_init (trace w0))
    by (sample_log; do 8 right; left; reflexivity).
  assert (Hc : event_call e_save_init =
               c_save_caffe2_net init_cpu init_file false) by reflexivity.
  split; [exact Hin | split; [exact Hc |]].
  exact (saved_nets_carry_cpu_option w0 e_save_init init_cpu init_file false
           Hin Hc).
Defined.

Lemma benchmark_report_cases_witness :
  ext_benchmark_pytorch_model MyModel_init [t1; t2] w0 =
    (Ok [7%Z], mkWorld 1 [] 70) /\
  ext_benchmark_caffe2_model init_cpu predict_cpu (mkWorld 1 [] 70) =
    (Ok [4%Z], mkWorld 1 [] 110) /\
  fst (cell_benchmark MyModel_init [t1; t2] init_cpu predict_cpu (start w0)) =
    Ok ([7%Z], [4%Z]).
Proof.
  assert (Hp : ext_benchmark_pytorch_model MyModel_init [t1; t2] w0 =
               (Ok [7%Z], mkWorld 1 [] 70))
    by reflexivity.
  assert (Hc : ext_benchmark_caffe2_model init_cpu predict_cpu
                 (mkWorld 1 [] 70) = (Ok [4%Z], mkWorld 1 [] 110))
    by reflexivity.
  split; [exact Hp | split; [exact Hc |]].
  rewrite (@benchmark_report_cases libs _ _ _ _ (@start libs w0) _ _ _ _ Hp Hc).
  reflexivity.
Defined.

Lemma cuda_path_compares_same_arrays_witness :
  device_type cuda_opts = caffe2_pb2_CUDA /\
  exists ev rest,
    appended (cell_verify cuda_opts product [product]) (start w0) = ev :: rest /\
    event_call ev = c_Variable_cpu product /\
    match ev with
    | Raised _ _ => rest = []
    | Returned _ _ =>
        exists ea rest',
          rest = ea :: rest' /\
          event_call ea =
            c_assert_almost_equal (numpy (cpu (data product))) product
                                  expected_decimal
    end.
Proof.
  assert (Hd : device_type cuda_opts = caffe2_pb2_CUDA) by reflexivity.
  split; [exact Hd |].
  exact (cuda_path_compares_same_arrays cuda_opts product product [] (start w0)
           Hd).
Defined.

End MoreRuns.

Module NoOutputRun.

Lemma no_output_trace_eq :
  @trace SampleNoOutput.libs Sample.w0 = SampleNoOutput.sample_trace.
Proof. vm_compute. reflexivity. Qed.

Lemma empty_results_pass_unchecked_witness :
  In SampleNoOutput.e_run (@trace SampleNoOutput.libs Sample.w0) /\
  filter (@is_assert SampleNoOutput.libs)
         (@trace SampleNoOutput.libs Sample.w0) = [] /\
  filter (@is_Variable_cpu SampleNoOutput.libs)
         (@trace SampleNoOutput.libs Sample.w0) = [] /\
  In (@Returned SampleNoOutput.libs (c_print success_message) VNone)
     (@trace SampleNoOutput.libs Sample.w0).
Proof.
  assert (Hin : In SampleNoOutput.e_run (@trace SampleNoOutput.libs Sample.w0)).
  { rewrite no_output_trace_eq.
    cbn [SampleNoOutput.sample_trace log_model log_export log_convert
         log_save_load log_pytorch_run log_caffe2_run log_benchmark app In].
    do 14 right. left. reflexivity. }
  split; [exact Hin |].
  exact (@empty_results_pass_unchecked SampleNoOutput.libs Sample.w0
           Sample.init_cpu Sample.predict_cpu [Sample.t1; Sample.t2] tt Hin).
Defined.

End NoOutputRun.
